(** * XMLTV generators: extraction, normalisation and document building

    A shallow embedding of the three entry scripts of the repository

      - [service/fuel/main.py]          (module [Fuel]),
      - [scripts/gracenote.py]          (module [Gracenote]),
      - [scripts/gracenote_to_xmltv.py] (module [GracenoteToXmltv]),

    together with the fragments of Python and of [xml.etree.ElementTree]
    they rely on (modules [Py] and [ET]).  Network transport, argument
    parsing, file output and pretty printing are outside the embedding: the
    builders are modelled up to the element tree they return or hand to the
    serialiser. *)

From Stdlib Require Import List String Ascii ZArith Bool Arith Lia.
From Stdlib Require Import Numbers.DecimalString.
Import ListNotations.
Open Scope string_scope.
Open Scope list_scope.

Set Implicit Arguments.

(* ================================================================== *)
(** ** Python values and string primitives *)
(* ================================================================== *)

Module Py.

(** A Python [str] is modelled by a Rocq [string]; a character stands for a
    code point below 256. *)

(** [bool(s)] for a string. *)
Definition str_truthy (s : string) : bool := negb (String.eqb s "").

(** [str.isspace] on one character: TAB..CR, FS..US, space, NEL, NBSP. *)
Definition isspace (c : ascii) : bool :=
  let n := nat_of_ascii c in
  ((9 <=? n)%nat && (n <=? 13)%nat) || ((28 <=? n)%nat && (n <=? 32)%nat)
  || (n =? 133)%nat || (n =? 160)%nat.

Fixpoint lstrip (s : string) : string :=
  match s with
  | EmptyString => EmptyString
  | String c s' => if isspace c then lstrip s' else s
  end.

Fixpoint rstrip (s : string) : string :=
  match s with
  | EmptyString => EmptyString
  | String c s' =>
      let r := rstrip s' in
      if isspace c && String.eqb r "" then EmptyString else String c r
  end.

(** [s.strip()] *)
Definition strip (s : string) : string := rstrip (lstrip s).

(** [s.endswith(suffix)] *)
Definition endswith (s suffix : string) : bool :=
  let n := String.length s in
  let m := String.length suffix in
  (m <=? n)%nat && String.eqb (substring (n - m) m s) suffix.

(** [s.split(sep)] for a one-character separator: never empty, empty
    fields kept. *)
Fixpoint split (sep : ascii) (s : string) : list string :=
  match s with
  | EmptyString => [EmptyString]
  | String c s' =>
      if Ascii.eqb c sep then EmptyString :: split sep s'
      else
        match split sep s' with
        | [] => [String c EmptyString]
        | field :: fields => String c field :: fields
        end
  end.

(** [sub in s] for two strings. *)
Fixpoint contains (sub s : string) : bool :=
  String.prefix sub s
  || match s with
     | EmptyString => false
     | String _ s' => contains sub s'
     end.

(** Values that reach the builders from [json.load] / [response.json()].
    Floats are not modelled. *)
#[local] Unset Elimination Schemes.
Inductive value : Type :=
| VNone
| VBool (b : bool)
| VInt (z : Z)
| VStr (s : string)
| VList (l : list value)
| VDict (d : list (string * value)).
#[local] Set Elimination Schemes.

(** [bool(v)] *)
Definition truthy (v : value) : bool :=
  match v with
  | VNone => false
  | VBool b => b
  | VInt z => negb (z =? 0)%Z
  | VStr s => str_truthy s
  | VList l => match l with [] => false | _ => true end
  | VDict d => match d with [] => false | _ => true end
  end.

(** [a or b] *)
Definition or_ (a b : value) : value := if truthy a then a else b.

(** [d.get(k)] and [d.get(k, default)] on a dictionary given as its list of
    items.  [json.load] keeps one item per key, so the first match is the
    only one. *)
Fixpoint lookup (d : list (string * value)) (k : string) : option value :=
  match d with
  | [] => None
  | (k', v) :: d' => if String.eqb k' k then Some v else lookup d' k
  end.

Definition get_default (d : list (string * value)) (k : string) (default : value) : value :=
  match lookup d k with Some v => v | None => default end.

Definition get (d : list (string * value)) (k : string) : value :=
  get_default d k VNone.

(** [str(z)] for an [int]. *)
Definition str_of_int (z : Z) : string := NilZero.string_of_int (Z.to_int z).

Section Str.
(** [repr] of a list or dictionary is left to the interpreter. *)
Variable repr_container : value -> string.

(** [str(v)], also what an f-string field [{v}] renders. *)
Definition str (v : value) : string :=
  match v with
  | VNone => "None"
  | VBool true => "True"
  | VBool false => "False"
  | VInt z => str_of_int z
  | VStr s => s
  | VList _ | VDict _ => repr_container v
  end.
End Str.

End Py.

(* ================================================================== *)
(** ** The fragment of [xml.etree.ElementTree] used by the scripts *)
(* ================================================================== *)

Module ET.

Section Elements.
(** [A]: attribute values; [T]: the [text] slot.  A parsed document has
    [A = string] and [T = option string]; the Gracenote builders store
    arbitrary Python values in both. *)
Variables A T : Type.

#[local] Unset Elimination Schemes.
Inductive Element : Type :=
| mkElement (tag : string) (attrib : list (string * A)) (text : T)
            (children : list Element).
#[local] Set Elimination Schemes.

Definition tag (e : Element) : string :=
  match e with mkElement t _ _ _ => t end.
Definition attrib (e : Element) : list (string * A) :=
  match e with mkElement _ a _ _ => a end.
Definition text (e : Element) : T :=
  match e with mkElement _ _ x _ => x end.
Definition children (e : Element) : list Element :=
  match e with mkElement _ _ _ c => c end.

(** [attrib.get(key)] *)
Fixpoint attrib_lookup (a : list (string * A)) (key : string) : option A :=
  match a with
  | [] => None
  | (k, v) :: a' => if String.eqb k key then Some v else attrib_lookup a' key
  end.

(** [elem.get(key, default)] *)
Definition get (e : Element) (key : string) (default : A) : A :=
  match attrib_lookup (attrib e) key with Some v => v | None => default end.

(** [attrib[key] = v]: overwrite in place, else append. *)
Fixpoint attrib_set (a : list (string * A)) (key : string) (v : A) : list (string * A) :=
  match a with
  | [] => [(key, v)]
  | (k, w) :: a' =>
      if String.eqb k key then (k, v) :: a' else (k, w) :: attrib_set a' key v
  end.

(** [elem.set(key, v)] *)
Definition set (e : Element) (key : string) (v : A) : Element :=
  mkElement (tag e) (attrib_set (attrib e) key v) (text e) (children e).

(** [elem.text = x] *)
Definition set_text (e : Element) (x : T) : Element :=
  mkElement (tag e) (attrib e) x (children e).

(** [ET.SubElement(parent, ...)]: the new element becomes the last child.
    The scripts fill the child in after the call, through the returned
    reference; here the child is passed completed, which yields the same
    tree. *)
Definition SubElement (parent child : Element) : Element :=
  mkElement (tag parent) (attrib parent) (text parent) (children parent ++ [child]).

(** [elem.find(t)]: first direct child with that tag. *)
Definition find (e : Element) (t : string) : option Element :=
  List.find (fun c => String.eqb (tag c) t) (children e).

(** [elem.iter()]: the element itself, then its descendants, in document
    order. *)
Fixpoint iter (e : Element) : list Element :=
  match e with
  | mkElement _ _ _ cs =>
      e :: (fix iter_all (l : list Element) : list Element :=
              match l with
              | [] => []
              | c :: l' => iter c ++ iter_all l'
              end) cs
  end.

(** The proper descendants of [e] in document order. *)
Definition descendants (e : Element) : list Element :=
  flat_map iter (children e).

(** [elem.findall('.//t')]: every proper descendant tagged [t]; the
    context element itself is never selected. *)
Definition findall_descendant (e : Element) (t : string) : list Element :=
  filter (fun c => String.eqb (tag c) t) (descendants e).

(** [elem.find('.//t')]: the first proper descendant tagged [t]. *)
Definition find_descendant (e : Element) (t : string) : option Element :=
  List.find (fun c => String.eqb (tag c) t) (descendants e).

(** The direct children with a given tag, in order. *)
Definition children_tagged (e : Element) (t : string) : list Element :=
  filter (fun c => String.eqb (tag c) t) (children e).
End Elements.

Arguments mkElement {A T} tag attrib text children.

End ET.

(* ================================================================== *)
(** ** [service/fuel/main.py] *)
(* ================================================================== *)

Module Fuel.

Import ET.

Definition Element : Type := ET.Element string (option string).

(** The dictionaries built by [parse_programs]; the four keys are always
    present. *)
Record program_data : Type := mkProgram {
  start : string;
  stop : string;
  title : string;
  desc : string
}.

(** [x.text.strip() if x is not None and x.text else default] *)
Definition stripped_text (x : option Element) (default : string) : string :=
  match x with
  | Some e =>
      match text e with
      | Some s => if Py.str_truthy s then Py.strip s else default
      | None => default
      end
  | None => default
  end.

(** Body of the loop over [programme] elements (method 1). *)
Definition programme_record (prog : Element) : program_data :=
  let title_elem := find prog "title" in
  let desc_elem :=
    match find prog "desc" with
    | None => find prog "description"
    | Some d => Some d
    end in
  {| start := get prog "start" "";
     stop := get prog "stop" "";
     title := stripped_text title_elem "";
     desc := stripped_text desc_elem "" |}.

(** Body of the loop over [item] elements (method 2). *)
Definition item_record (item : Element) : program_data :=
  {| start := stripped_text (find item "pubDate") "";
     stop := "";
     title := stripped_text (find item "title") "";
     desc := stripped_text (find item "description") "" |}.

(** Method 3: the test on the tag of a candidate. *)
Definition program_like (elem : Element) : bool :=
  Py.endswith (tag elem) "program" || Py.endswith (tag elem) "show".

(** Method 3: one turn of the loop over the children of a candidate; the
    state is the pair (title, desc) collected so far. *)
Definition scan_child (acc : string * string) (child : Element) : string * string :=
  if Py.endswith (tag child) "title" || Py.endswith (tag child) "name" then
    match text child with
    | Some s => if Py.str_truthy s then (Py.strip s, snd acc) else acc
    | None => acc
    end
  else if Py.endswith (tag child) "desc" || Py.endswith (tag child) "description" then
    match text child with
    | Some s => if Py.str_truthy s then (fst acc, Py.strip s) else acc
    | None => acc
    end
  else acc.

Definition generic_record (elem : Element) : program_data :=
  let td := fold_left scan_child (children elem) ("", "") in
  {| start := get elem "start" (get elem "begin" "");
     stop := get elem "stop" (get elem "end" "");
     title := fst td;
     desc := snd td |}.

(** Method 3: one turn of the loop over [xml_root.iter()]. *)
Definition generic_step (programs : list program_data) (elem : Element) : list program_data :=
  if program_like elem then
    let program_data := generic_record elem in
    if Py.str_truthy (title program_data) then programs ++ [program_data]
    else programs
  else programs.

Definition is_empty {X : Type} (l : list X) : bool :=
  match l with [] => true | _ => false end.

(** [parse_programs(xml_root, language)].  Every ElementTree and string
    primitive used is total on a parsed element, so neither the per-element
    handlers nor the outer [except Exception] is ever entered and the
    function always reaches [return programs]. *)
Definition parse_programs (xml_root : Element) (language : string) : list program_data :=
  let programs : list program_data := [] in
  let programme_elements := findall_descendant xml_root "programme" in
  let programs :=
    if negb (is_empty programme_elements) then
      fold_left (fun ps prog => ps ++ [programme_record prog]) programme_elements programs
    else programs in
  let programs :=
    if is_empty programs then
      fold_left (fun ps item => ps ++ [item_record item])
                (findall_descendant xml_root "item") programs
    else programs in
  let programs :=
    if is_empty programs then fold_left generic_step (iter xml_root) programs
    else programs in
  programs.

(** The entries of [all_channels_data]. *)
Record channel_info : Type := mkChannelInfo {
  channel_id : string;
  display_name : string;
  language : string;
  programs : list program_data
}.

Definition new (t : string) : Element := mkElement t [] None [].

(** [start_time] and [stop_time] of the builder. *)
Definition start_time (program : program_data) : string :=
  if Py.str_truthy (start program) then start program else "20000101000000".

Definition stop_time (program : program_data) : string :=
  if Py.str_truthy (stop program) then stop program else "20000101010000".

(** The [programme] element added for one program that passed the title
    test. *)
Definition programme_elem (channel_id language : string) (program : program_data) : Element :=
  let programme := new "programme" in
  let programme := set programme "start" (start_time program) in
  let programme := set programme "stop" (stop_time program) in
  let programme := set programme "channel" channel_id in
  let title_e := set_text (set (new "title") "lang" language) (Some (title program)) in
  let programme := SubElement programme title_e in
  if Py.str_truthy (desc program) then
    let desc_e := set_text (set (new "desc") "lang" language) (Some (desc program)) in
    SubElement programme desc_e
  else programme.

Definition channel_elem (channel_id display_name : string) : Element :=
  let channel := set (new "channel") "id" channel_id in
  SubElement channel (set_text (new "display-name") (Some display_name)).

(** One turn of the inner loop [for program in programs]. *)
Definition add_program (channel_id language : string) (tv : Element) (program : program_data) : Element :=
  if Py.str_truthy (title program) then
    SubElement tv (programme_elem channel_id language program)
  else tv.

(** One turn of the outer loop [for channel_info in all_channels_data]. *)
Definition add_channel (tv : Element) (ci : channel_info) : Element :=
  let tv := SubElement tv (channel_elem (channel_id ci) (display_name ci)) in
  fold_left (add_program (channel_id ci) (language ci)) (programs ci) tv.

Definition tv_root : Element :=
  let tv := new "tv" in
  let tv := set tv "source-info-name" "Bitcentral, Inc." in
  let tv := set tv "source-info-url" "https://bitcentral.com" in
  set tv "generator-info-name" "FUEL EPG Generator".

(** [create_xmltv_output(all_channels_data)] *)
Definition create_xmltv_output (all_channels_data : list channel_info) : Element :=
  fold_left add_channel all_channels_data tv_root.

(** [parse_channel_data(xml_root)['display_name']].  The dictionary returned
    has this single key; no primitive used can raise on a parsed element. *)
Definition parse_channel_data (xml_root : Element) : string :=
  let channel_elem :=
    match find xml_root "channel" with
    | None => find_descendant xml_root "channel"
    | Some c => Some c
    end in
  match channel_elem with
  | Some channel_elem =>
      let display_name_elem :=
        match find channel_elem "display-name" with
        | None => find channel_elem "title"
        | Some d => Some d
        end in
      stripped_text display_name_elem ""
  | None => ""
  end.

(** An entry of the channels file: a JSON object whose values are
    strings. *)
Definition channel_entry : Type := list (string * string).

(** [entry.get(key)] *)
Fixpoint entry_get (entry : channel_entry) (key : string) : option string :=
  match entry with
  | [] => None
  | (k, v) :: entry' => if String.eqb k key then Some v else entry_get entry' key
  end.

Section Main.
(** [fetch_epg_data]: the parsed response, or [None] on any failure. *)
Variable fetch_epg_data : string -> option Element.

(** One turn of the loop [for idx, channel_info in enumerate(channels_data, 1)]
    of [main]; the state is [all_channels_data]. *)
Definition process_entry (all_channels_data : list channel_info) (entry : channel_entry)
  : list channel_info :=
  let channel_id := entry_get entry "channel_id" in
  let language :=
    match entry_get entry "language" with Some l => l | None => "en" end in
  match channel_id with
  | None => all_channels_data
  | Some channel_id =>
      if negb (Py.str_truthy channel_id) then all_channels_data
      else
        match fetch_epg_data channel_id with
        | None =>
            all_channels_data
            ++ [mkChannelInfo channel_id ("Channel " ++ channel_id) language []]
        | Some xml_root =>
            let display_name := parse_channel_data xml_root in
            let programs := parse_programs xml_root language in
            let display_name :=
              if negb (Py.str_truthy display_name) then ("Channel " ++ channel_id)%string
              else display_name in
            all_channels_data
            ++ [mkChannelInfo channel_id display_name language programs]
        end
  end.

(** [all_channels_data] at the end of the loop. *)
Definition collect_channels (channels_data : list channel_entry) : list channel_info :=
  fold_left process_entry channels_data [].

(** The part of [main] between loading the channels file and serialising:
    the document, or [None] when no output is created. *)
Definition main_document (channels_data : list channel_entry) : option Element :=
  let all_channels_data := collect_channels channels_data in
  if negb (is_empty all_channels_data) then Some (create_xmltv_output all_channels_data)
  else None.
End Main.

End Fuel.

(* ================================================================== *)
(** ** [datetime.fromtimestamp(x).strftime("%Y%m%d%H%M%S")] *)
(* ================================================================== *)

Module Datetime.

Open Scope Z_scope.

(** Proleptic Gregorian date (year, month, day) of a day count relative to
    1970-01-01. *)
Definition civil_from_days (days : Z) : Z * Z * Z :=
  let z := days + 719468 in
  let era := z / 146097 in
  let doe := z - era * 146097 in
  let yoe := (doe - doe / 1460 + doe / 36524 - doe / 146096) / 365 in
  let doy := doe - (365 * yoe + yoe / 4 - yoe / 100) in
  let mp := (5 * doy + 2) / 153 in
  let d := doy - (153 * mp + 2) / 5 + 1 in
  let m := if mp <? 10 then mp + 3 else mp - 9 in
  let y := yoe + era * 400 in
  (if m <=? 2 then y + 1 else y, m, d).

Record datetime : Type := mkDatetime {
  year : Z; month : Z; day : Z; hour : Z; minute : Z; second : Z
}.

Section Local.
(** The zone of the machine: seconds east of UTC at a given instant. *)
Variable utc_offset : Z -> Z.

(** [datetime.fromtimestamp(x)]: local wall-clock time; [None] stands for
    the [TypeError] raised on a value that is not a number and for the
    errors raised when the year leaves 1..9999.  The first day of year 1, on
    which the interpreter also fails, is not told apart. *)
Definition fromtimestamp (x : Py.value) : option datetime :=
  let convert (t : Z) :=
    let l := t + utc_offset t in
    let '(y, m, d) := civil_from_days (l / 86400) in
    let s := l mod 86400 in
    if (1 <=? y) && (y <=? 9999) then
      Some (mkDatetime y m d (s / 3600) (s mod 3600 / 60) (s mod 60))
    else None in
  match x with
  | Py.VInt t => convert t
  | Py.VBool b => convert (if b then 1 else 0)
  | _ => None
  end.
End Local.

Definition pad2 (n : Z) : string :=
  ((if (n <? 10)%Z then "0" else "") ++ Py.str_of_int n)%string.

(** [dt.strftime("%Y%m%d%H%M%S")]; the year is printed as the C library
    prints it, four digits from 1000 on. *)
Definition strftime (dt : datetime) : string :=
  (Py.str_of_int (year dt) ++ pad2 (month dt) ++ pad2 (day dt)
   ++ pad2 (hour dt) ++ pad2 (minute dt) ++ pad2 (second dt))%string.

(** [(date(1970, 1, 1) + timedelta(days)).strftime("%Y-%m-%d")]; [None]
    stands for the [OverflowError] raised when the date leaves the years
    1..9999. *)
Definition date_key (days : Z) : option string :=
  let '(y, m, d) := civil_from_days days in
  if (1 <=? y) && (y <=? 9999) then
    Some (Py.str_of_int y ++ "-" ++ pad2 m ++ "-" ++ pad2 d)%string
  else None.

End Datetime.

(** Outcome of a function that may let an exception escape. *)
Inductive result (X : Type) : Type :=
| Ok (x : X)
| Raised.
Arguments Ok {X} x.
Arguments Raised {X}.

Definition bind {X Y : Type} (r : result X) (k : X -> result Y) : result Y :=
  match r with Ok x => k x | Raised => Raised end.

(** The element trees handed to the serialiser by the Gracenote scripts:
    attribute values and text are whatever Python value was stored. *)
Definition PyElement : Type := ET.Element Py.value Py.value.

Definition py_new (t : string) : PyElement := ET.mkElement t [] Py.VNone [].

Definition is_none (v : Py.value) : bool :=
  match v with Py.VNone => true | _ => false end.



(* ================================================================== *)
(** ** [scripts/gracenote.py] *)
(* ================================================================== *)

Module Gracenote.

Import ET.

Definition dict : Type := list (string * Py.value).

(** The dictionaries appended to [all_programs]; all ten keys are always
    present.  [end_] is the key ["end"]. *)
Record program_entry : Type := mkEntry {
  start : string;
  end_ : string;
  channel_id : Py.value;
  title : Py.value;
  episode_title : Py.value;
  description : Py.value;
  season : Py.value;
  episode : Py.value;
  rating : Py.value;
  language : Py.value
}.

Section Env.
Variable repr_container : Py.value -> string.
Variable utc_offset : Z -> Z.
(** [fetch_program_data]: the decoded response body, or [None]. *)
Variable fetch_program_data : dict -> string -> Py.value.

Let str := Py.str repr_container.

(** Body of the [try] block of [process_channel]; [None] when an exception
    is raised, which the handler turns into [continue]. *)
Definition program_entry_of (channel_data : dict) (program : Py.value) : option program_entry :=
  match program with
  | Py.VDict p =>
      match Datetime.fromtimestamp utc_offset (Py.get p "startTime"),
            Datetime.fromtimestamp utc_offset (Py.get p "endTime") with
      | Some start_time, Some end_time =>
          match Py.get_default p "program" (Py.VDict []) with
          | Py.VDict prog_info =>
              Some {| start := Datetime.strftime start_time;
                      end_ := Datetime.strftime end_time;
                      channel_id := Py.or_ (Py.get channel_data "xmltv_id")
                                           (Py.get channel_data "site_id");
                      title := Py.get_default prog_info "title" (Py.VStr "Unknown");
                      episode_title := Py.get prog_info "episodeTitle";
                      description := Py.get prog_info "shortDesc";
                      season := Py.get prog_info "season";
                      episode := Py.get prog_info "episode";
                      rating := Py.get p "rating";
                      language := Py.get channel_data "language" |}
          | _ => None
          end
      | _, _ => None
      end
  | _ => None
  end.

Definition add_program (channel_data : dict) (all_programs : list program_entry)
           (program : Py.value) : list program_entry :=
  match program_entry_of channel_data program with
  | Some program_entry => all_programs ++ [program_entry]
  | None => all_programs
  end.

(** What [for program in v] runs over; [None] when [v] is not iterable. *)
Definition iterate (v : Py.value) : option (list Py.value) :=
  match v with
  | Py.VList l => Some l
  | Py.VDict d => Some (map (fun kv => Py.VStr (fst kv)) d)
  | Py.VStr s => Some (map (fun c => Py.VStr (String c "")) (list_ascii_of_string s))
  | _ => None
  end.

(** One turn of [for date_str in dates]. *)
Definition process_date (channel_data : dict) (all_programs : list program_entry)
           (date_str : string) : result (list program_entry) :=
  let program_data := fetch_program_data channel_data date_str in
  if negb (Py.truthy program_data) then Ok all_programs
  else
    match program_data with
    | Py.VDict d =>
        match iterate (Py.get_default d date_str (Py.VList [])) with
        | Some date_programs =>
            Ok (fold_left (add_program channel_data) date_programs all_programs)
        | None => Raised
        end
    | _ => Raised
    end.

(** [process_channel(channel_data, dates)] *)
Definition process_channel (channel_data : dict) (dates : list string)
  : result (list program_entry) :=
  fold_left (fun acc date_str => bind acc (fun ps => process_date channel_data ps date_str))
            dates (Ok []).

Definition channel_elem (channel : dict) : PyElement :=
  let channel_id := Py.or_ (Py.get channel "xmltv_id") (Py.get channel "site_id") in
  let channel_elem := set (py_new "channel") "id" (Py.VStr (str channel_id)) in
  SubElement channel_elem
    (set_text (py_new "display-name") (Py.get_default channel "name" (Py.VStr "Unknown"))).

(** [if program['language']: e.set("lang", program['language'])] *)
Definition with_lang (program : program_entry) (e : PyElement) : PyElement :=
  if Py.truthy (language program) then set e "lang" (language program) else e.

Definition programme_elem (program : program_entry) : PyElement :=
  let programme := py_new "programme" in
  let programme := set programme "start" (Py.VStr (start program ++ " +0000")) in
  let programme := set programme "stop" (Py.VStr (end_ program ++ " +0000")) in
  let programme := set programme "channel" (Py.VStr (str (channel_id program))) in
  let programme :=
    SubElement programme (set_text (with_lang program (py_new "title")) (title program)) in
  let programme :=
    if Py.truthy (episode_title program) then
      SubElement programme
        (set_text (with_lang program (py_new "sub-title")) (episode_title program))
    else programme in
  let programme :=
    if Py.truthy (description program) then
      SubElement programme
        (set_text (with_lang program (py_new "desc")) (description program))
    else programme in
  let programme :=
    if negb (is_none (season program)) && negb (is_none (episode program)) then
      let ep_ns :=
        set_text (set (py_new "episode-num") "system" (Py.VStr "xmltv_ns"))
          (Py.VStr (str (season program) ++ "." ++ str (episode program) ++ ".0")) in
      let programme := SubElement programme ep_ns in
      let ep_onscreen :=
        set_text (set (py_new "episode-num") "system" (Py.VStr "onscreen"))
          (Py.VStr ("S" ++ str (season program) ++ "E" ++ str (episode program))) in
      SubElement programme ep_onscreen
    else programme in
  if Py.truthy (rating program) then
    SubElement programme
      (SubElement (py_new "rating") (set_text (py_new "value") (rating program)))
  else programme.

Definition tv_root : PyElement :=
  let tv := py_new "tv" in
  let tv := set tv "source-info-name" (Py.VStr "Gracenote TV Listings") in
  let tv := set tv "source-info-url" (Py.VStr "https://tvlistings.gracenote.com") in
  set tv "generator-info-name" (Py.VStr "Gracenote TV Converter").

(** [create_xmltv(channels, programs)], up to the tree [tv] passed to
    [prettify_xml]. *)
Definition create_xmltv (channels : list dict) (programs : list program_entry) : PyElement :=
  let tv := fold_left (fun tv channel => SubElement tv (channel_elem channel)) channels tv_root in
  fold_left (fun tv program => SubElement tv (programme_elem program)) programs tv.

(** The part of [main] between loading the channels and writing the
    file: every channel is processed in turn, the programs are
    concatenated and the document is built. *)
Definition main_tree (channels_data : list dict) (dates : list string) : result PyElement :=
  bind
    (fold_left
       (fun acc channel =>
          bind acc (fun all_programs =>
          bind (process_channel channel dates) (fun channel_programs =>
          Ok (all_programs ++ channel_programs))))
       channels_data (Ok []))
    (fun all_programs => Ok (create_xmltv channels_data all_programs)).
End Env.

End Gracenote.

(* ================================================================== *)
(** ** [scripts/gracenote_to_xmltv.py] *)
(* ================================================================== *)

Module GracenoteToXmltv.

Import ET.

Definition dict : Type := list (string * Py.value).

(** The dictionaries built by [parse_programs]; all ten keys are always
    present, so [program.get(k)] and [program[k]] agree. *)
Record program : Type := mkProgram {
  start : string;
  stop : string;
  channel_id : Py.value;
  title : Py.value;
  short_desc : Py.value;
  rating : Py.value;
  season : Py.value;
  episode : Py.value;
  episode_title : Py.value;
  lang : Py.value
}.

Section Env.
Variable repr_container : Py.value -> string.

Let str := Py.str repr_container.

(** One turn of [for channel in channels]. *)
Definition add_channel (tv : PyElement) (channel : dict) : PyElement :=
  let channel_id := Py.or_ (Py.get channel "xmltv_id") (Py.get channel "site_id") in
  if negb (Py.truthy channel_id) then tv
  else
    let channel_elem := set (py_new "channel") "id" channel_id in
    let channel_elem :=
      SubElement channel_elem
        (set_text (py_new "display-name") (Py.get_default channel "name" (Py.VStr ""))) in
    SubElement tv channel_elem.

(** [if program['lang']: e.set('lang', program['lang'])] *)
Definition with_lang (program : program) (e : PyElement) : PyElement :=
  if Py.truthy (lang program) then set e "lang" (lang program) else e.

Definition programme_elem (program : program) : PyElement :=
  let programme := py_new "programme" in
  let programme := set programme "start" (Py.VStr (start program ++ " +0000")) in
  let programme := set programme "stop" (Py.VStr (stop program ++ " +0000")) in
  let programme := set programme "channel" (channel_id program) in
  let programme :=
    SubElement programme (set_text (with_lang program (py_new "title")) (title program)) in
  let programme :=
    if Py.truthy (episode_title program) then
      SubElement programme
        (set_text (with_lang program (py_new "sub-title")) (episode_title program))
    else programme in
  let programme :=
    if Py.truthy (short_desc program) then
      SubElement programme
        (set_text (with_lang program (py_new "desc")) (short_desc program))
    else programme in
  let programme :=
    if Py.truthy (season program) && Py.truthy (episode program) then
      let ep_num_ns :=
        set_text (set (py_new "episode-num") "system" (Py.VStr "xmltv_ns"))
          (Py.VStr (str (season program) ++ "." ++ str (episode program) ++ ".0")) in
      let programme := SubElement programme ep_num_ns in
      let ep_num_onscreen :=
        set_text (set (py_new "episode-num") "system" (Py.VStr "onscreen"))
          (Py.VStr ("S" ++ str (season program) ++ "E" ++ str (episode program))) in
      SubElement programme ep_num_onscreen
    else programme in
  if Py.truthy (rating program) then
    SubElement programme
      (SubElement (py_new "rating") (set_text (py_new "value") (rating program)))
  else programme.

Definition tv_root : PyElement :=
  let tv := py_new "tv" in
  let tv := set tv "source-info-name" (Py.VStr "Gracenote TV Listings") in
  let tv := set tv "source-info-url" (Py.VStr "https://tvlistings.gracenote.com") in
  set tv "generator-info-name" (Py.VStr "Gracenote TV Converter").

(** [create_xmltv(channels, all_programs)], up to the tree [tv] passed to
    [ET.tostring]. *)
Definition create_xmltv (channels : list dict) (all_programs : list (list program)) : PyElement :=
  let tv := fold_left add_channel channels tv_root in
  fold_left
    (fun tv channel_programs =>
       fold_left (fun tv program => SubElement tv (programme_elem program))
                 channel_programs tv)
    all_programs tv.
End Env.

(** The parsed channels file. *)
Definition XmlElement : Type := ET.Element string (option string).

(** [d.get(key)] of an attribute: a string, or [None]. *)
Definition attr_value (e : XmlElement) (key : string) : Py.value :=
  match attrib_lookup (attrib e) key with
  | Some v => Py.VStr v
  | None => Py.VNone
  end.

(** Body of the loop of [parse_channels_file]: the dictionary built for one
    [channel] element. *)
Definition parse_channel (channel_elem : XmlElement) : dict :=
  let channel :=
    [ ("name", Py.VStr (match text channel_elem with
                        | Some t => if Py.str_truthy t then Py.strip t else ""
                        | None => ""
                        end));
      ("lang", attr_value channel_elem "lang");
      ("xmltv_id", attr_value channel_elem "xmltv_id");
      ("site_id", attr_value channel_elem "site_id") ] in
  match attrib_lookup (attrib channel_elem) "site_id" with
  | Some site_id =>
      if Py.str_truthy site_id then
        match Py.split "/" site_id with
        | p0 :: p1 :: p2 :: p3 :: p4 :: p5 :: _ =>
            channel
            ++ [ ("device", Py.VStr p0); ("lineup_id", Py.VStr p1);
                 ("headend_id", Py.VStr p2); ("country", Py.VStr p3);
                 ("postal", Py.VStr p4); ("prgsvcid", Py.VStr p5) ]
        | _ => channel
        end
      else channel
  | None => channel
  end.

(** [parse_channels_file], from the root of the parsed file on. *)
Definition parse_channels_file (root : XmlElement) : list dict :=
  map parse_channel (findall_descendant root "channel").

(** How [datetime.fromtimestamp] ends on a value. *)
Inductive conversion : Type :=
| Converted (dt : Datetime.datetime)
| NotANumber
| OutOfRange (t : Z).

(** What one turn of the loop over [day_programs] does. *)
Inductive turn : Type :=
| Appended (prog : program)
| Skipped
| Escaped.

Section Parse.
Variable utc_offset : Z -> Z.
(** [datetime.now().date()] as a number of days since 1970-01-01. *)
Variable today : Z.
(** Whether a conversion that leaves the supported range is reported as a
    [ValueError], which the handler of [parse_programs] catches, rather than
    as an [OverflowError] or [OSError], which it does not. *)
Variable reported_as_value_error : Z -> bool.
(** [fetch_programs]: the decoded response body, or [None]. *)
Variable fetch_programs : dict -> Py.value.

Definition convert (x : Py.value) : conversion :=
  match x with
  | Py.VInt t =>
      match Datetime.fromtimestamp utc_offset x with
      | Some dt => Converted dt
      | None => OutOfRange t
      end
  | Py.VBool b =>
      match Datetime.fromtimestamp utc_offset x with
      | Some dt => Converted dt
      | None => OutOfRange (if b then 1 else 0)
      end
  | _ => NotANumber
  end.

(** Body of the [try] block of [parse_programs], with its handler for
    [KeyError], [TypeError] and [ValueError]; an [AttributeError] escapes. *)
Definition parse_program (channel : dict) (program : Py.value) : turn :=
  match program with
  | Py.VDict p =>
      match convert (Py.get_default p "startTime" (Py.VInt 0)) with
      | NotANumber => Skipped
      | OutOfRange t => if reported_as_value_error t then Skipped else Escaped
      | Converted start_time =>
          match convert (Py.get_default p "endTime" (Py.VInt 0)) with
          | NotANumber => Skipped
          | OutOfRange t => if reported_as_value_error t then Skipped else Escaped
          | Converted end_time =>
              match Py.get_default p "program" (Py.VDict []) with
              | Py.VDict program_info =>
                  Appended
                    {| start := Datetime.strftime start_time;
                       stop := Datetime.strftime end_time;
                       channel_id := Py.or_ (Py.get channel "xmltv_id")
                                            (Py.get channel "site_id");
                       title := Py.get_default program_info "title" (Py.VStr "");
                       short_desc := Py.get program_info "shortDesc";
                       rating := Py.get p "rating";
                       season := Py.get program_info "season";
                       episode := Py.get program_info "episode";
                       episode_title := Py.get program_info "episodeTitle";
                       lang := Py.get channel "lang" |}
              | _ => Escaped
              end
          end
      end
  | _ => Escaped
  end.

(** The loop [for program in day_programs]. *)
Fixpoint parse_day (channel : dict) (day_programs : list Py.value) (programs : list program)
  : result (list program) :=
  match day_programs with
  | [] => Ok programs
  | program :: rest =>
      match parse_program channel program with
      | Appended prog => parse_day channel rest (programs ++ [prog])
      | Skipped => parse_day channel rest programs
      | Escaped => Raised
      end
  end.

(** [program_data and date_key in program_data]; [None] when the test
    itself raises. *)
Definition has_day (program_data : Py.value) (date_key : string) : option bool :=
  if negb (Py.truthy program_data) then Some false
  else
    match program_data with
    | Py.VDict d =>
        Some (match Py.lookup d date_key with Some _ => true | None => false end)
    | Py.VList l =>
        Some (existsb (fun v => match v with
                                | Py.VStr s => String.eqb s date_key
                                | _ => false
                                end) l)
    | Py.VStr s => Some (Py.contains date_key s)
    | _ => None
    end.

(** One turn of [for day_offset in range(3)]. *)
Definition parse_offset (program_data : Py.value) (channel : dict)
           (programs : list program) (day_offset : Z) : result (list program) :=
  match Datetime.date_key (today + day_offset) with
  | None => Raised
  | Some date_key =>
      match has_day program_data date_key with
      | None => Raised
      | Some false => Ok programs
      | Some true =>
          match program_data with
          | Py.VDict d =>
              match Gracenote.iterate (Py.get d date_key) with
              | Some day_programs => parse_day channel day_programs programs
              | None => Raised
              end
          | _ => Raised
          end
      end
  end.

(** [parse_programs(program_data, channel)] *)
Definition parse_programs (program_data : Py.value) (channel : dict)
  : result (list program) :=
  fold_left
    (fun acc day_offset =>
       bind acc (fun programs => parse_offset program_data channel programs day_offset))
    [0%Z; 1%Z; 2%Z] (Ok []).

(** One turn of the loop of [main] over the channels. *)
Definition fetch_channel (all_programs : list (list program)) (channel : dict)
  : result (list (list program)) :=
  let program_data := fetch_programs channel in
  if Py.truthy program_data then
    bind (parse_programs program_data channel)
         (fun programs => Ok (all_programs ++ [programs]))
  else Ok (all_programs ++ [[]]).

(** [all_programs] at the end of that loop. *)
Definition collect_programs (channels : list dict) : result (list (list program)) :=
  fold_left (fun acc channel => bind acc (fun all_programs => fetch_channel all_programs channel))
            channels (Ok []).
End Parse.

End GracenoteToXmltv.

(* ================================================================== *)
(** ** Properties of documents *)
(* ================================================================== *)

Import ET.

Section DocumentOrder.
Variables A T : Type.

(** No [programme] element occurs before a [channel] element in a list of
    siblings. *)
Fixpoint channels_first (seen_programme : bool) (l : list (Element A T)) : bool :=
  match l with
  | [] => true
  | e :: l' =>
      if String.eqb (tag e) "channel" then
        negb seen_programme && channels_first seen_programme l'
      else if String.eqb (tag e) "programme" then channels_first true l'
      else channels_first seen_programme l'
  end.

(** Every [channel] child of [tv] precedes every [programme] child:
    whenever positions [i] and [j] hold a [programme] and a [channel],
    [j < i]. *)
Definition channels_precede_programmes (tv : Element A T) : Prop :=
  forall i j p c,
    nth_error (children tv) i = Some p -> tag p = "programme" ->
    nth_error (children tv) j = Some c -> tag c = "channel" ->
    (j < i)%nat.

(** [key in elem.attrib] *)
Definition has_attr (e : Element A T) (key : string) : bool :=
  match attrib_lookup (attrib e) key with Some _ => true | None => false end.
End DocumentOrder.

(* ================================================================== *)
(** ** Derived definitions used to state the properties *)
(* ================================================================== *)

Module FuelDoc.
Import Fuel.

(** The test [if program['title']] of the builder. *)
Definition titled (p : program_data) : bool := Py.str_truthy (title p).

(** What one entry of [all_channels_data] contributes to [tv]. *)
Definition channel_block (ci : channel_info) : list Element :=
  channel_elem (channel_id ci) (display_name ci)
  :: map (programme_elem (channel_id ci) (language ci)) (filter titled (programs ci)).

(** The [title] and [desc] children of a [programme] element. *)
Definition title_elem (lang : string) (p : program_data) : Element :=
  mkElement "title" [("lang", lang)] (Some (title p)) [].

Definition desc_elem (lang : string) (p : program_data) : Element :=
  mkElement "desc" [("lang", lang)] (Some (desc p)) [].

(** The candidates of method 3 of [parse_programs]: the records of the
    program-like elements of the tree that have a title. *)
Definition generic_candidates (xml_root : Element) : list program_data :=
  filter titled (map generic_record (filter program_like (iter xml_root))).

(** Every element of the document tagged [t], the root included. *)
Definition elements_tagged (xml_root : Element) (t : string) : list Element :=
  filter (fun e => String.eqb (tag e) t) (iter xml_root).

(** The defaulting of [start] and [stop] done by the builder, as a map on
    records. *)
Definition normalize (p : program_data) : program_data :=
  {| start := start_time p; stop := stop_time p; title := title p; desc := desc p |}.

(** The wire form [YYYYMMDDHHMMSS] of an instant read in UTC. *)
Definition wire_utc (t : Z) : option string :=
  option_map Datetime.strftime (Datetime.fromtimestamp (fun _ => 0%Z) (Py.VInt t)).

(** The day part of a wire timestamp. *)
Definition day_of (wire : string) : string := substring 0 8 wire.

(** The day of Unix time zero. *)
Definition epoch_zero_day : string :=
  match wire_utc 0 with Some w => day_of w | None => "" end.

(** A document whose root is tagged [programme] and holds one [item]. *)
Definition programme_rooted_feed : Element :=
  mkElement "programme" [("start", "20240101060000")] None
    [mkElement "item" [] None [mkElement "title" [] (Some "Morning News") []]].

(** Two channels, the first with one titled program. *)
Definition two_channels : list channel_info :=
  [ mkChannelInfo "a" "Channel a" "en" [mkProgram "" "" "Morning News" ""];
    mkChannelInfo "b" "Channel b" "en" [] ].

(** A listing that holds both a [programme] and an [item] below its root. *)
Definition morning_news : Element :=
  mkElement "programme" [("start", "20240101060000 +0100"); ("stop", "20240101070000 +0100")]
    None [mkElement "title" [] (Some " Morning News ") []].

Definition mixed_listing : Element :=
  mkElement "tv" [] None
    [ morning_news;
      mkElement "item" [] None [mkElement "title" [] (Some "Feed entry") []] ].

(** A document reduced to its root. *)
Definition empty_listing : Element := mkElement "tv" [] None [].

(** A feed with one untitled item. *)
Definition untitled_feed : Element :=
  mkElement "rss" [] None
    [mkElement "item" [] None [mkElement "description" [] (Some "No title here") []]].

(** A titled program without times, and an untitled feed item. *)
Definition untimed_program : program_data := mkProgram "" "" "Morning News" "".

Definition untitled_item : Element :=
  mkElement "item" [] None [mkElement "description" [] (Some "No title here") []].

End FuelDoc.

Module GridDoc.

(** The children that carry text in a [programme] element. *)
Definition is_text_child (e : PyElement) : bool :=
  String.eqb (tag e) "title" || String.eqb (tag e) "sub-title" || String.eqb (tag e) "desc".

(** [channel.get('xmltv_id') or channel.get('site_id')] *)
Definition resolved_id (channel : list (string * Py.value)) : Py.value :=
  Py.or_ (Py.get channel "xmltv_id") (Py.get channel "site_id").

(** The channel element of [gracenote_to_xmltv.py] for a channel that is not
    skipped. *)
Definition kept_channel_elem (channel : list (string * Py.value)) : PyElement :=
  mkElement "channel" [("id", resolved_id channel)] Py.VNone
    [mkElement "display-name" [] (Py.get_default channel "name" (Py.VStr "")) []].

(** A channel record with neither [xmltv_id] nor [site_id]. *)
Definition orphan_channel : list (string * Py.value) :=
  [("name", Py.VStr "Orphan"); ("language", Py.VStr "en")].

(** The channel of the end-to-end scenario; its identifier is the raw site
    id. *)
Definition test_channel : list (string * Py.value) :=
  [("site_id", Py.VStr "5"); ("name", Py.VStr "Test"); ("language", Py.VStr "en")].

(** The grid data of the end-to-end scenario: one program under
    ["2024-01-01"]. *)
Definition news_program : Py.value :=
  Py.VDict
    [("startTime", Py.VInt 1704100800);
     ("endTime", Py.VInt 1704104400);
     ("program",
      Py.VDict [("title", Py.VStr "News"); ("season", Py.VInt 2);
                ("episode", Py.VInt 5)])].

Definition news_grid : Py.value :=
  Py.VDict [("2024-01-01", Py.VList [news_program])].

(** The entry [process_channel] records for it, for given renderings of the
    two instants. *)
Definition news_entry (start_str end_str : string) : Gracenote.program_entry :=
  Gracenote.mkEntry start_str end_str (Py.VStr "5") (Py.VStr "News")
    Py.VNone Py.VNone (Py.VInt 2) (Py.VInt 5) Py.VNone (Py.VStr "en").

(** The fetch window used in the examples. *)
Definition three_days : list string := ["2024-01-01"; "2024-01-02"; "2024-01-03"].

(** The [programme] element expected in the end-to-end scenario, for given
    renderings of the two instants. *)
Definition news_programme (start_str end_str : string) : PyElement :=
  mkElement "programme"
    [("start", Py.VStr (start_str ++ " +0000"));
     ("stop", Py.VStr (end_str ++ " +0000"));
     ("channel", Py.VStr "5")]
    Py.VNone
    [mkElement "title" [("lang", Py.VStr "en")] (Py.VStr "News") [];
     mkElement "episode-num" [("system", Py.VStr "xmltv_ns")] (Py.VStr "2.5.0") [];
     mkElement "episode-num" [("system", Py.VStr "onscreen")] (Py.VStr "S2E5") []].

(** A program of season 0, episode 1, as each script records it. *)
Definition pilot_entry : Gracenote.program_entry :=
  Gracenote.mkEntry "20240101060000" "20240101070000" (Py.VStr "5") (Py.VStr "Pilot")
    Py.VNone Py.VNone (Py.VInt 0) (Py.VInt 1) Py.VNone (Py.VStr "en").

Definition pilot_program : GracenoteToXmltv.program :=
  GracenoteToXmltv.mkProgram "20240101060000" "20240101070000" (Py.VStr "5")
    (Py.VStr "Pilot") Py.VNone Py.VNone (Py.VInt 0) (Py.VInt 1) Py.VNone (Py.VStr "en").

(** The two [episode-num] elements for given renderings of the season and
    of the episode. *)
Definition episode_num (system text : string) : PyElement :=
  mkElement "episode-num" [("system", Py.VStr system)] (Py.VStr text) [].

Definition episode_nums (season_str episode_str : string) : list PyElement :=
  [ episode_num "xmltv_ns" (season_str ++ "." ++ episode_str ++ ".0");
    episode_num "onscreen" ("S" ++ season_str ++ "E" ++ episode_str) ].

(** A program with an episode but no season, as [gracenote.py] records it. *)
Definition unnumbered_entry : Gracenote.program_entry :=
  Gracenote.mkEntry "20240101060000" "20240101070000" (Py.VStr "5") (Py.VStr "Special")
    Py.VNone Py.VNone Py.VNone (Py.VInt 1) Py.VNone (Py.VStr "en").

(** A stand-in for the interpreter's [repr] of containers. *)
Definition no_repr (v : Py.value) : string := "".

End GridDoc.

Module MainDoc.

(** The identifier an entry of the channels file contributes: none when
    [channel_id] is missing or empty. *)
Definition entry_id (entry : Fuel.channel_entry) : list string :=
  match Fuel.entry_get entry "channel_id" with
  | Some id => if Py.str_truthy id then [id] else []
  | None => []
  end.

(** The identifiers listed in the channels file, in order. *)
Definition listed_ids (channels_data : list Fuel.channel_entry) : list string :=
  flat_map entry_id channels_data.

(** The [programme] elements of one entry of [all_channels_data]. *)
Definition programmes_of (ci : Fuel.channel_info) : list Fuel.Element :=
  map (Fuel.programme_elem (Fuel.channel_id ci) (Fuel.language ci))
      (filter FuelDoc.titled (Fuel.programs ci)).

(** A listing with a channel header and one programme, and a channels file
    with three entries, the second without identifier. *)
Definition headed_listing : Fuel.Element :=
  mkElement "tv" [] None
    [ mkElement "channel" [("id", "x")] None
        [mkElement "display-name" [] (Some " First ") []];
      FuelDoc.morning_news ].

Definition three_entries : list Fuel.channel_entry :=
  [ [("channel_id", "one"); ("language", "fr")];
    [("language", "en")];
    [("channel_id", "two")] ].

(** An upstream that knows channel ["one"] only. *)
Definition fetch_one (channel_id : string) : option Fuel.Element :=
  if String.eqb channel_id "one" then Some headed_listing else None.

(** A feed of two items, the second without title and publication date. *)
Definition two_item_feed : Fuel.Element :=
  mkElement "rss" [] None
    [ mkElement "channel" [] None
        [ mkElement "title" [] (Some "Feed") [];
          mkElement "item" [] None
            [ mkElement "title" [] (Some "Quiz") [];
              mkElement "pubDate" [] (Some " Mon, 01 Jan 2024 06:00:00 GMT ") [] ];
          mkElement "item" [] None
            [ mkElement "description" [] (Some "Untitled") [] ] ] ].

(** A listing in the generic shape. *)
Definition generic_listing : Fuel.Element :=
  mkElement "guide" [] None
    [ mkElement "tvshow" [("begin", "0600"); ("end", "0700")] None
        [ mkElement "showname" [] (Some " Quiz ") [] ];
      mkElement "tvshow" [("begin", "0700")] None [] ].

End MainDoc.

Module GridPlan.

(** [isinstance(v, dict)] *)
Definition is_dict (v : Py.value) : bool :=
  match v with Py.VDict _ => true | _ => false end.

(** The programs a response lists under a date, when it is an object and
    holds a list there. *)
Definition listed (response : Py.value) (date_str : string) : list Py.value :=
  match response with
  | Py.VDict d =>
      match Py.get_default d date_str (Py.VList []) with
      | Py.VList l => l
      | _ => []
      end
  | _ => []
  end.

(** A response [process_channel] can read for a date: [None], or an object
    that holds nothing or a list under that date. *)
Definition readable (response : Py.value) (date_str : string) : Prop :=
  response = Py.VNone \/
  exists d l, response = Py.VDict d /\ Py.get_default d date_str (Py.VList []) = Py.VList l.

Section Entries.
Variable utc_offset : Z -> Z.
Variable channel : Gracenote.dict.

(** The entries of the programs of a list that convert, in order. *)
Definition entries_of (programs : list Py.value) : list Gracenote.program_entry :=
  flat_map (fun program =>
              match Gracenote.program_entry_of utc_offset channel program with
              | Some entry => [entry]
              | None => []
              end) programs.
End Entries.

(** A check of a predicate on the integers [z], [z + 1], ..., [z + n - 1]. *)
Fixpoint all_from (n : nat) (z : Z) (f : Z -> bool) : bool :=
  match n with
  | O => true
  | S k => f z && all_from k (z + 1)%Z f
  end.

(** A string of decimal digits of a given length. *)
Fixpoint digits (n : nat) (s : string) : bool :=
  match n, s with
  | O, EmptyString => true
  | S k, String c s' =>
      (48 <=? nat_of_ascii c)%nat && (nat_of_ascii c <=? 57)%nat && digits k s'
  | _, _ => false
  end.

(** Month and day of [Datetime.civil_from_days], as functions of the day of
    the 400-year era; the test that they are a month and a day of month. *)
Definition month_day_in_range (doe : Z) : bool :=
  let yoe := ((doe - doe / 1460 + doe / 36524 - doe / 146096) / 365)%Z in
  let doy := (doe - (365 * yoe + yoe / 4 - yoe / 100))%Z in
  let mp := ((5 * doy + 2) / 153)%Z in
  let d := (doy - (153 * mp + 2) / 5 + 1)%Z in
  let m := (if mp <? 10 then mp + 3 else mp - 9)%Z in
  ((1 <=? m) && (m <=? 12) && (1 <=? d) && (d <=? 31))%Z.

(** No [/] in a string. *)
Fixpoint no_slash (s : string) : bool :=
  match s with
  | EmptyString => true
  | String c s' => negb (Ascii.eqb c "/") && no_slash s'
  end.

(** A day with one malformed program between two good ones. *)
Definition mixed_day : Py.value :=
  Py.VDict
    [("2024-01-01",
      Py.VList
        [ GridDoc.news_program;
          Py.VStr "not a program";
          Py.VDict [("startTime", Py.VInt 1704104400); ("endTime", Py.VInt 1704108000)] ])].

(** A program without times. *)
Definition untimed_grid_program : list (string * Py.value) :=
  [("program", Py.VDict [("title", Py.VStr "Filler")])].

(** A channels file with a full site id, a short one and none. *)
Definition full_channel : GracenoteToXmltv.XmlElement :=
  mkElement "channel"
    [("lang", "en"); ("xmltv_id", "News.us"); ("site_id", "X/USA-lineup/HE1/USA/10001/5")]
    (Some " News ") [].

Definition short_channel : GracenoteToXmltv.XmlElement :=
  mkElement "channel" [("site_id", "5")] (Some "Five") [].

Definition bare_channel : GracenoteToXmltv.XmlElement :=
  mkElement "channel" [] (Some "Bare") [].

Definition channels_file : GracenoteToXmltv.XmlElement :=
  mkElement "channels" [] None [full_channel; short_channel; bare_channel].

(** The identifier and the name a [channel] element of the channels file
    stands for. *)
Definition file_channel_id (e : GracenoteToXmltv.XmlElement) : Py.value :=
  Py.or_ (GracenoteToXmltv.attr_value e "xmltv_id") (GracenoteToXmltv.attr_value e "site_id").

Definition file_channel_name (e : GracenoteToXmltv.XmlElement) : string :=
  match text e with
  | Some t => if Py.str_truthy t then Py.strip t else ""
  | None => ""
  end.

(** Six fields joined by [/]. *)
Definition site_id_of (p0 p1 p2 p3 p4 p5 : string) : string :=
  (p0 ++ "/" ++ p1 ++ "/" ++ p2 ++ "/" ++ p3 ++ "/" ++ p4 ++ "/" ++ p5)%string.




(** 2024-01-01 as a number of days since 1970-01-01. *)
Definition new_year_2024 : Z := 19723.

End GridPlan.

(* ================================================================== *)
(** ** Generic facts about loops that append *)
(* ================================================================== *)

Lemma fold_left_snoc_map (X Y : Type) (f : X -> Y) (l : list X) (acc : list Y) :
  fold_left (fun ps x => ps ++ [f x]) l acc = acc ++ map f l.
Proof.
  revert acc; induction l as [|x l IH]; intros acc; simpl.
  - now rewrite app_nil_r.
  - rewrite IH, <- app_assoc. reflexivity.
Qed.

Section SubElementLoops.
Variables A T : Type.
Implicit Types tv e : Element A T.

Lemma children_SubElement tv e :
  children (SubElement tv e) = children tv ++ [e].
Proof. reflexivity. Qed.

(** A loop that adds one child per item. *)
Lemma children_fold_SubElement (X : Type) (f : X -> Element A T) (l : list X) tv :
  children (fold_left (fun tv x => SubElement tv (f x)) l tv)
  = children tv ++ map f l.
Proof.
  revert tv; induction l as [|x l IH]; intros tv; simpl.
  - now rewrite app_nil_r.
  - rewrite IH, children_SubElement, <- app_assoc. reflexivity.
Qed.

(** A loop that adds a child for the items passing a test. *)
Lemma children_fold_SubElement_if (X : Type) (test : X -> bool)
      (f : X -> Element A T) (l : list X) tv :
  children (fold_left (fun tv x => if test x then SubElement tv (f x) else tv) l tv)
  = children tv ++ map f (filter test l).
Proof.
  revert tv; induction l as [|x l IH]; intros tv; simpl.
  - now rewrite app_nil_r.
  - rewrite IH. destruct (test x); simpl.
    + now rewrite <- app_assoc.
    + reflexivity.
Qed.

Lemma iter_unfold e : iter e = e :: descendants e.
Proof.
  destruct e as [t a x cs]. reflexivity.
Qed.
End SubElementLoops.

Lemma str_truthy_true (s : string) : Py.str_truthy s = true <-> s <> "".
Proof.
  unfold Py.str_truthy. rewrite negb_true_iff. split.
  - intros H E. apply String.eqb_neq in H. contradiction.
  - intros H. now apply String.eqb_neq.
Qed.

Lemma str_truthy_false (s : string) : Py.str_truthy s = false <-> s = "".
Proof.
  unfold Py.str_truthy. rewrite negb_false_iff. apply String.eqb_eq.
Qed.

(* ================================================================== *)
(** ** The embedding on sample inputs *)
(* ================================================================== *)

Example strip_sample : Py.strip "  Morning News  " = "Morning News".
Proof. reflexivity. Qed.

Example endswith_sample :
  Py.endswith "tvshow" "show" = true /\ Py.endswith "programme" "program" = false.
Proof. split; reflexivity. Qed.

Example wire_utc_samples :
  FuelDoc.wire_utc 0 = Some "19700101000000" /\
  FuelDoc.wire_utc 951825599 = Some "20000229115959" /\
  FuelDoc.wire_utc 1704100800 = Some "20240101092000".
Proof. repeat split. Qed.

Example parse_mixed_listing :
  Fuel.parse_programs FuelDoc.mixed_listing "en"
  = [Fuel.mkProgram "20240101060000 +0100" "20240101070000 +0100" "Morning News" ""].
Proof. reflexivity. Qed.

Example parse_untitled_feed :
  Fuel.parse_programs FuelDoc.untitled_feed "en"
  = [Fuel.mkProgram "" "" "" "No title here"].
Proof. reflexivity. Qed.

Example parse_generic_show :
  Fuel.parse_programs
    (mkElement "guide" [] None
       [ mkElement "tvshow" [("begin", "0600"); ("end", "0700")] None
           [ mkElement "showname" [] (Some "Quiz") [];
             mkElement "longdescription" [] (Some " Questions ") [] ];
         mkElement "tvshow" [("begin", "0700")] None [] ]) "en"
  = [Fuel.mkProgram "0600" "0700" "Quiz" "Questions"].
Proof. reflexivity. Qed.

Example build_two_channels :
  children (Fuel.create_xmltv_output FuelDoc.two_channels)
  = [ mkElement "channel" [("id", "a")] None
        [mkElement "display-name" [] (Some "Channel a") []];
      mkElement "programme"
        [("start", "20000101000000"); ("stop", "20000101010000"); ("channel", "a")] None
        [mkElement "title" [("lang", "en")] (Some "Morning News") []];
      mkElement "channel" [("id", "b")] None
        [mkElement "display-name" [] (Some "Channel b") []] ].
Proof. reflexivity. Qed.

(* ================================================================== *)
(** ** The tolerant EPG pipeline ([service/fuel/main.py]) *)
(* ================================================================== *)

Module FuelFacts.
Import Fuel FuelDoc.

Lemma children_add_channel tv ci :
  children (add_channel tv ci) = children tv ++ channel_block ci.
Proof.
  unfold add_channel, channel_block. cbv zeta.
  change (add_program (channel_id ci) (language ci))
    with (fun tv p => if titled p
                      then SubElement tv (programme_elem (channel_id ci) (language ci) p)
                      else tv).
  rewrite children_fold_SubElement_if, children_SubElement, <- app_assoc.
  reflexivity.
Qed.

Lemma children_fold_add_channel data tv :
  children (fold_left add_channel data tv) = children tv ++ flat_map channel_block data.
Proof.
  revert tv; induction data as [|ci data IH]; intros tv; simpl.
  - now rewrite app_nil_r.
  - rewrite IH, children_add_channel, <- app_assoc. reflexivity.
Qed.

(** The children of the document, in order. *)
Lemma children_create_xmltv_output data :
  children (create_xmltv_output data) = flat_map channel_block data.
Proof. unfold create_xmltv_output. now rewrite children_fold_add_channel. Qed.

Lemma fuel_tag_programme cid lang p : tag (programme_elem cid lang p) = "programme".
Proof. unfold programme_elem. destruct (Py.str_truthy (desc p)); reflexivity. Qed.

Lemma fuel_tag_channel cid name : tag (channel_elem cid name) = "channel".
Proof. reflexivity. Qed.

Lemma fuel_attrib_programme cid lang p :
  attrib (programme_elem cid lang p)
  = [("start", start_time p); ("stop", stop_time p); ("channel", cid)].
Proof. unfold programme_elem. destruct (Py.str_truthy (desc p)); reflexivity. Qed.

Lemma fuel_children_programme cid lang p :
  children (programme_elem cid lang p)
  = title_elem lang p :: (if Py.str_truthy (desc p) then [desc_elem lang p] else []).
Proof. unfold programme_elem. destruct (Py.str_truthy (desc p)); reflexivity. Qed.

(** A [programme] child of the document is the element of a titled program
    of one of the channels. *)
Lemma programme_child_inv data e :
  In e (children (create_xmltv_output data)) -> tag e = "programme" ->
  exists ci p, In ci data /\ In p (programs ci) /\ title p <> "" /\
               e = programme_elem (channel_id ci) (language ci) p.
Proof.
  rewrite children_create_xmltv_output. intros Hin Htag.
  apply in_flat_map in Hin. destruct Hin as [ci [Hci Hin]].
  destruct Hin as [<- | Hin]; [discriminate Htag|].
  apply in_map_iff in Hin. destruct Hin as [p [<- Hp]].
  apply filter_In in Hp. destruct Hp as [Hp Ht].
  exists ci, p. repeat split; auto. now apply str_truthy_true.
Qed.

Lemma programme_child_intro data ci p :
  In ci data -> In p (programs ci) -> title p <> "" ->
  In (programme_elem (channel_id ci) (language ci) p) (children (create_xmltv_output data)).
Proof.
  intros Hci Hp Ht. rewrite children_create_xmltv_output.
  apply in_flat_map. exists ci. split; [assumption|]. right.
  apply in_map. apply filter_In. split; [assumption|]. now apply str_truthy_true.
Qed.

End FuelFacts.

(** *** Extraction *)

Module ExtractFacts.
Import Fuel FuelDoc.

Lemma is_empty_true (X : Type) (l : list X) : is_empty l = true <-> l = [].
Proof. destruct l; simpl; split; congruence. Qed.

Lemma generic_loop (elems : list Element) (acc : list program_data) :
  fold_left generic_step elems acc
  = acc ++ filter titled (map generic_record (filter program_like elems)).
Proof.
  revert acc; induction elems as [|e elems IH]; intros acc.
  - simpl. now rewrite app_nil_r.
  - cbn [fold_left filter]. rewrite IH. unfold generic_step.
    destruct (program_like e); [|reflexivity].
    cbn [map filter]. unfold titled at 2.
    destruct (Py.str_truthy (title (generic_record e)));
      [now rewrite <- app_assoc | reflexivity].
Qed.

(** Method 1 wins as soon as one [programme] descendant exists. *)
Lemma parse_programs_programme xml_root language :
  findall_descendant xml_root "programme" <> [] ->
  parse_programs xml_root language
  = map programme_record (findall_descendant xml_root "programme").
Proof.
  intros H. unfold parse_programs. cbv zeta.
  destruct (findall_descendant xml_root "programme") as [|prog rest] eqn:E;
    [contradiction|].
  cbn [is_empty negb]. rewrite fold_left_snoc_map. reflexivity.
Qed.

(** Method 2 is reached only without [programme] descendants. *)
Lemma parse_programs_item xml_root language :
  findall_descendant xml_root "programme" = [] ->
  findall_descendant xml_root "item" <> [] ->
  parse_programs xml_root language
  = map item_record (findall_descendant xml_root "item").
Proof.
  intros H1 H2. unfold parse_programs. cbv zeta. rewrite H1.
  cbn [is_empty negb]. rewrite fold_left_snoc_map.
  destruct (findall_descendant xml_root "item") as [|item rest]; [contradiction|].
  reflexivity.
Qed.

(** Method 3 is reached only when the first two found nothing. *)
Lemma parse_programs_generic xml_root language :
  findall_descendant xml_root "programme" = [] ->
  findall_descendant xml_root "item" = [] ->
  parse_programs xml_root language = generic_candidates xml_root.
Proof.
  intros H1 H2. unfold parse_programs. cbv zeta. rewrite H1, H2.
  cbn [is_empty negb fold_left]. now rewrite generic_loop.
Qed.

Lemma filter_nil_iff (X : Type) (f : X -> bool) (l : list X) :
  filter f l = [] <-> forall x, In x l -> f x = false.
Proof.
  induction l as [|a l IH]; simpl.
  - split; [intros _ x []|reflexivity].
  - destruct (f a) eqn:E; split.
    + discriminate.
    + intros H. specialize (H a (or_introl eq_refl)). congruence.
    + intros H x [<-|Hx]; [assumption|]. now apply IH.
    + intros H. apply IH. intros x Hx. apply H. now right.
Qed.

End ExtractFacts.

(* ================================================================== *)
(** ** Claims about the tolerant EPG pipeline *)
(* ================================================================== *)

Section FuelClaims.
Import Fuel FuelDoc FuelFacts ExtractFacts.

(** C2, as stated, fails: [findall('.//programme')] never selects the root.
    The document [<programme start=...><item><title>Morning News</title>
    </item></programme>] contains an element tagged [programme] and one
    tagged [item], yet [parse_programs] returns the record of the [item]
    and nothing derived from the [programme] element. *)
Lemma programme_root_is_not_searched :
  elements_tagged programme_rooted_feed "programme" <> [] /\
  elements_tagged programme_rooted_feed "item" <> [] /\
  parse_programs programme_rooted_feed "en"
    = map item_record (elements_tagged programme_rooted_feed "item") /\
  parse_programs programme_rooted_feed "en"
    <> map programme_record (elements_tagged programme_rooted_feed "programme").
Proof. vm_compute. repeat split; discriminate. Qed.

(** C2 (amended): for every parsed document with at least one element
    tagged [programme] strictly below the root, whatever [item] elements it
    also holds, [parse_programs] returns exactly the records of those
    [programme] elements, in document order. *)
Theorem shape_priority_below_root (xml_root : Element) (language : string) :
  findall_descendant xml_root "programme" <> [] ->
  parse_programs xml_root language
  = map programme_record (findall_descendant xml_root "programme").
Proof. apply parse_programs_programme. Qed.

Lemma shape_priority_below_root_witness :
  findall_descendant mixed_listing "item" <> [] /\
  parse_programs mixed_listing "en"
  = map programme_record (findall_descendant mixed_listing "programme").
Proof.
  split.
  - vm_compute. discriminate.
  - apply (shape_priority_below_root mixed_listing "en"). vm_compute. discriminate.
Defined.

(** C3: when no [programme] and no [item] lies below the root and no
    program-like element of the tree collects a title, [parse_programs]
    returns the empty list; so it does on every document reduced to its root.
    The embedding is a total function: no path of [parse_programs] lets an
    exception escape. *)
Theorem no_shape_gives_empty_list (xml_root : Element) (language : string) :
  (findall_descendant xml_root "programme" = [] ->
   findall_descendant xml_root "item" = [] ->
   (forall e, In e (iter xml_root) -> program_like e = true ->
              title (generic_record e) = "") ->
   parse_programs xml_root language = [])
  /\
  (children xml_root = [] -> parse_programs xml_root language = []).
Proof.
  assert (G : findall_descendant xml_root "programme" = [] ->
              findall_descendant xml_root "item" = [] ->
              (forall e, In e (iter xml_root) -> program_like e = true ->
                         title (generic_record e) = "") ->
              parse_programs xml_root language = []).
  { intros H1 H2 H3. rewrite parse_programs_generic by assumption.
    unfold generic_candidates. apply filter_nil_iff. intros p Hp.
    apply in_map_iff in Hp. destruct Hp as [e [<- He]].
    apply filter_In in He. destruct He as [He Hl].
    unfold titled. apply str_truthy_false. now apply H3. }
  split; [exact G|].
  intros Hc. destruct xml_root as [t a x cs]. simpl in Hc. subst cs.
  apply G; try reflexivity.
  intros e [<-|[]] _. reflexivity.
Qed.

Lemma no_shape_gives_empty_list_witness :
  parse_programs empty_listing "en" = [] /\
  parse_programs (mkElement "show" [("start", "20240101060000")] (Some "  ") []) "en" = [].
Proof.
  split.
  - apply (proj1 (no_shape_gives_empty_list empty_listing "en")).
    + reflexivity.
    + reflexivity.
    + intros e [<-|[]] H. vm_compute in H. discriminate H.
  - apply (proj2 (no_shape_gives_empty_list _ "en")). reflexivity.
Defined.

(** C10: every [programme] child of the document built by
    [create_xmltv_output] has a [title] child whose text is not empty.  An
    [item] without a [title] child is returned by [parse_programs] with an
    empty title, and the builder adds nothing for such a record. *)
Theorem emitted_programmes_are_titled (all_channels_data : list channel_info) :
  (forall e, In e (children (create_xmltv_output all_channels_data)) ->
             tag e = "programme" ->
             exists te t, find e "title" = Some te /\ text te = Some t /\ t <> "")
  /\
  (forall xml_root language item,
      findall_descendant xml_root "programme" = [] ->
      In item (findall_descendant xml_root "item") ->
      find item "title" = None ->
      In (item_record item) (parse_programs xml_root language) /\
      title (item_record item) = "" /\
      forall cid lang tv, add_program cid lang tv (item_record item) = tv).
Proof.
  split.
  - intros e Hin Htag.
    destruct (programme_child_inv _ _ Hin Htag) as [ci [p [_ [_ [Ht ->]]]]].
    exists (title_elem (language ci) p), (title p).
    unfold find. rewrite fuel_children_programme. simpl. auto.
  - intros xml_root lang item H1 Hin Hfind.
    assert (Ht : title (item_record item) = "").
    { unfold item_record. cbn [title]. now rewrite Hfind. }
    split; [|split; [exact Ht|]].
    + rewrite parse_programs_item; [now apply in_map | assumption |].
      intros E. rewrite E in Hin. exact Hin.
    + intros cid lang' tv. unfold add_program. now rewrite Ht.
Qed.

Lemma emitted_programmes_are_titled_witness :
  (exists te t, find (programme_elem "a" "en" untimed_program) "title" = Some te
                /\ text te = Some t /\ t <> "")
  /\
  (In (item_record untitled_item) (parse_programs untitled_feed "en") /\
   title (item_record untitled_item) = "" /\
   forall cid lang tv, add_program cid lang tv (item_record untitled_item) = tv).
Proof.
  split.
  - apply (proj1 (emitted_programmes_are_titled two_channels)).
    + vm_compute. right. left. reflexivity.
    + reflexivity.
  - apply (proj2 (emitted_programmes_are_titled two_channels) untitled_feed "en").
    + reflexivity.
    + vm_compute. left. reflexivity.
    + reflexivity.
Defined.

(** C4, as stated, fails on the day of the sentinel: a titled program without
    times is given ["20000101000000"] and ["20000101010000"], which lie on
    1 January 2000 and not on the day of Unix time zero. *)
Lemma sentinel_is_not_on_epoch_day :
  epoch_zero_day = "19700101" /\
  get (programme_elem "a" "en" untimed_program) "start" "" = "20000101000000" /\
  get (programme_elem "a" "en" untimed_program) "stop" "" = "20000101010000" /\
  day_of (get (programme_elem "a" "en" untimed_program) "start" "") <> epoch_zero_day /\
  day_of (get (programme_elem "a" "en" untimed_program) "stop" "") <> epoch_zero_day.
Proof. vm_compute. repeat split; discriminate. Qed.

(** C4 (amended): every program with a non-empty title is emitted as a
    complete [programme] element (tag, [start], [stop] and [channel]
    attributes, a [title] child).  An empty [start] is replaced by
    ["20000101000000"] and an empty [stop] by ["20000101010000"]: midnight of
    1 January 2000 and the instant exactly 3600 seconds later. *)
Theorem missing_times_default_to_sentinel
        (all_channels_data : list channel_info) (ci : channel_info) (p : program_data) :
  In ci all_channels_data -> In p (programs ci) -> title p <> "" ->
  let e := programme_elem (channel_id ci) (language ci) p in
  In e (children (create_xmltv_output all_channels_data)) /\
  tag e = "programme" /\
  attrib e = [("start", start_time p); ("stop", stop_time p); ("channel", channel_id ci)] /\
  find e "title" = Some (title_elem (language ci) p) /\
  (start p = "" -> get e "start" "" = "20000101000000") /\
  (stop p = "" -> get e "stop" "" = "20000101010000") /\
  (start p <> "" -> get e "start" "" = start p) /\
  (stop p <> "" -> get e "stop" "" = stop p) /\
  wire_utc 946684800 = Some "20000101000000" /\
  wire_utc (946684800 + 3600) = Some "20000101010000".
Proof.
  intros Hci Hp Ht e. subst e.
  split; [now apply programme_child_intro|].
  split; [apply fuel_tag_programme|].
  split; [apply fuel_attrib_programme|].
  split; [unfold find; rewrite fuel_children_programme; reflexivity|].
  unfold get. rewrite fuel_attrib_programme. cbn [attrib_lookup String.eqb Ascii.eqb Bool.eqb].
  unfold start_time, stop_time.
  repeat split.
  - intros E. now rewrite E.
  - intros E. now rewrite E.
  - intros E. apply str_truthy_true in E. now rewrite E.
  - intros E. apply str_truthy_true in E. now rewrite E.
Qed.

Lemma missing_times_default_to_sentinel_witness :
  In (programme_elem "a" "en" untimed_program) (children (create_xmltv_output two_channels)) /\
  get (programme_elem "a" "en" untimed_program) "start" "" = "20000101000000" /\
  get (programme_elem "a" "en" untimed_program) "stop" "" = "20000101010000".
Proof.
  assert (Hci : In (mkChannelInfo "a" "Channel a" "en" [untimed_program]) two_channels)
    by (left; reflexivity).
  assert (Hp : In untimed_program
                  (programs (mkChannelInfo "a" "Channel a" "en" [untimed_program])))
    by (left; reflexivity).
  assert (Ht : title untimed_program <> "") by discriminate.
  destruct (missing_times_default_to_sentinel two_channels _ _ Hci Hp Ht)
    as [H1 [_ [_ [_ [H5 [H6 _]]]]]].
  split; [exact H1|]. split; [apply H5; reflexivity | apply H6; reflexivity].
Defined.

(** C9: a [programme] element whose [start] and [stop] attributes are
    non-empty strings reaches the output document with exactly these strings
    as [start] and [stop] (given a title, without which nothing is emitted);
    the defaulting leaves such a record unchanged and is idempotent on every
    record. *)
Theorem preformatted_times_pass_through
        (xml_root : Element) (language cid dname : string) (prog : Element) :
  In prog (findall_descendant xml_root "programme") ->
  get prog "start" "" <> "" -> get prog "stop" "" <> "" ->
  title (programme_record prog) <> "" ->
  let p := programme_record prog in
  let e := programme_elem cid language p in
  In p (parse_programs xml_root language) /\
  In e (children (create_xmltv_output
                    [mkChannelInfo cid dname language (parse_programs xml_root language)])) /\
  get e "start" "" = get prog "start" "" /\
  get e "stop" "" = get prog "stop" "" /\
  normalize p = p /\
  (forall q, normalize (normalize q) = normalize q).
Proof.
  intros Hin Hs He Ht p e.
  assert (Hp : In p (parse_programs xml_root language)).
  { rewrite parse_programs_programme; [now apply in_map|].
    intros E. rewrite E in Hin. exact Hin. }
  assert (Hst : start_time p = get prog "start" "").
  { unfold start_time. subst p. cbn [start programme_record].
    apply str_truthy_true in Hs. now rewrite Hs. }
  assert (Hsp : stop_time p = get prog "stop" "").
  { unfold stop_time. subst p. cbn [stop programme_record].
    apply str_truthy_true in He. now rewrite He. }
  split; [exact Hp|].
  split.
  { apply (programme_child_intro
             [mkChannelInfo cid dname language (parse_programs xml_root language)]
             (mkChannelInfo cid dname language (parse_programs xml_root language)) p);
      [left; reflexivity | exact Hp | exact Ht]. }
  subst e. unfold get at 1 3. rewrite fuel_attrib_programme.
  cbn [attrib_lookup String.eqb Ascii.eqb Bool.eqb].
  split; [exact Hst|]. split; [exact Hsp|].
  split.
  - unfold normalize. rewrite Hst, Hsp. reflexivity.
  - intros q. unfold normalize, start_time, stop_time. cbn [start stop title desc].
    destruct (Py.str_truthy (start q)) eqn:E1, (Py.str_truthy (stop q)) eqn:E2;
      rewrite ?E1, ?E2; reflexivity.
Qed.

Lemma preformatted_times_pass_through_witness :
  get (programme_elem "a" "en" (programme_record morning_news)) "start" ""
    = "20240101060000 +0100" /\
  get (programme_elem "a" "en" (programme_record morning_news)) "stop" ""
    = "20240101070000 +0100".
Proof.
  assert (Hin : In morning_news (findall_descendant mixed_listing "programme"))
    by (left; reflexivity).
  assert (Hs : get morning_news "start" "" <> "") by discriminate.
  assert (He : get morning_news "stop" "" <> "") by discriminate.
  assert (Ht : title (programme_record morning_news) <> "") by discriminate.
  destruct (preformatted_times_pass_through mixed_listing "en" "a" "Channel a"
              morning_news Hin Hs He Ht) as [_ [_ [H3 [H4 _]]]].
  split; [exact H3 | exact H4].
Defined.

End FuelClaims.

(* ================================================================== *)
(** ** The grid pipelines: document order and channels *)
(* ================================================================== *)

Section Order.
Variables A T : Type.

(** A list of [channel] elements followed by [programme] elements is in
    document order. *)
Lemma channels_then_programmes_ordered (tv : Element A T) (cs ps : list (Element A T)) :
  children tv = cs ++ ps ->
  Forall (fun e => tag e = "channel") cs ->
  Forall (fun e => tag e = "programme") ps ->
  channels_precede_programmes tv.
Proof.
  intros E Hc Hp i j p c Hi Hpt Hj Hct. rewrite E in Hi, Hj.
  assert (Hj' : (j < List.length cs)%nat).
  { destruct (Nat.lt_ge_cases j (List.length cs)) as [H|H]; [exact H|].
    rewrite nth_error_app2 in Hj by exact H.
    apply nth_error_In in Hj. rewrite Forall_forall in Hp.
    apply Hp in Hj. rewrite Hct in Hj. discriminate Hj. }
  assert (Hi' : (List.length cs <= i)%nat).
  { destruct (Nat.lt_ge_cases i (List.length cs)) as [H|H]; [|exact H].
    rewrite nth_error_app1 in Hi by exact H.
    apply nth_error_In in Hi. rewrite Forall_forall in Hc.
    apply Hc in Hi. rewrite Hpt in Hi. discriminate Hi. }
  lia.
Qed.

(** The boolean scan decides the property. *)
Lemma channels_first_sound (l : list (Element A T)) (seen : bool) :
  channels_first seen l = true ->
  forall i j p c,
    nth_error l i = Some p -> tag p = "programme" ->
    nth_error l j = Some c -> tag c = "channel" -> (j < i)%nat.
Proof.
  revert seen. induction l as [|e l IH]; intros seen H i j p c Hi Hp Hj Hc.
  - destruct i; discriminate Hi.
  - simpl in H. destruct (String.eqb (tag e) "channel") eqn:Ec.
    + apply andb_true_iff in H. destruct H as [_ H].
      destruct i as [|i].
      * simpl in Hi. injection Hi as ->. apply String.eqb_eq in Ec.
        rewrite Hp in Ec. discriminate Ec.
      * destruct j as [|j]; [lia|]. apply -> Nat.succ_lt_mono.
        exact (IH _ H i j p c Hi Hp Hj Hc).
    + destruct j as [|j].
      * simpl in Hj. injection Hj as ->. apply String.eqb_neq in Ec. contradiction.
      * destruct i as [|i].
        -- exfalso. simpl in Hi. injection Hi as ->.
           assert (Ep : String.eqb (tag p) "programme" = true)
             by now apply String.eqb_eq.
           rewrite Ep in H. clear IH Ec Ep Hp.
           revert j Hj. induction l as [|x l IHl]; intros j Hj.
           ++ destruct j; discriminate Hj.
           ++ simpl in H. destruct j as [|j].
              ** simpl in Hj. injection Hj as ->.
                 apply String.eqb_eq in Hc. rewrite Hc in H. discriminate H.
              ** destruct (String.eqb (tag x) "channel"); [discriminate H|].
                 destruct (String.eqb (tag x) "programme"); exact (IHl H j Hj).
        -- apply -> Nat.succ_lt_mono.
           destruct (String.eqb (tag e) "programme");
             exact (IH _ H i j p c Hi Hp Hj Hc).
Qed.
End Order.

Module GracenoteFacts.
Import Gracenote GridDoc.

Section Env.
Variable repr_container : Py.value -> string.

Lemma gracenote_children channels programs :
  children (create_xmltv repr_container channels programs)
  = map (channel_elem repr_container) channels
    ++ map (programme_elem repr_container) programs.
Proof.
  unfold create_xmltv. cbv zeta.
  rewrite (children_fold_SubElement (programme_elem repr_container)).
  rewrite (children_fold_SubElement (channel_elem repr_container)).
  reflexivity.
Qed.

Lemma gracenote_tag_channel channel : tag (channel_elem repr_container channel) = "channel".
Proof. reflexivity. Qed.

Lemma gracenote_tag_programme program :
  tag (programme_elem repr_container program) = "programme".
Proof.
  unfold programme_elem.
  destruct (Py.truthy (episode_title program)), (Py.truthy (description program)),
    (negb (is_none (season program)) && negb (is_none (episode program))),
    (Py.truthy (rating program)); reflexivity.
Qed.

(** In the document of [gracenote.py] every [channel] child precedes every
    [programme] child. *)
Lemma gracenote_document_order channels programs :
  channels_precede_programmes (create_xmltv repr_container channels programs).
Proof.
  eapply channels_then_programmes_ordered.
  - apply gracenote_children.
  - apply Forall_forall. intros e He. apply in_map_iff in He.
    destruct He as [c [<- _]]. apply gracenote_tag_channel.
  - apply Forall_forall. intros e He. apply in_map_iff in He.
    destruct He as [p [<- _]]. apply gracenote_tag_programme.
Qed.
End Env.

End GracenoteFacts.

Module GracenoteToXmltvFacts.
Import GracenoteToXmltv GridDoc.

Section Env.
Variable repr_container : Py.value -> string.

Lemma converter_children_channels channels tv :
  children (fold_left add_channel channels tv)
  = children tv
    ++ map kept_channel_elem (filter (fun c => Py.truthy (resolved_id c)) channels).
Proof.
  revert tv. induction channels as [|c channels IH]; intros tv.
  - simpl. now rewrite app_nil_r.
  - cbn [fold_left filter]. rewrite IH. unfold add_channel.
    fold (resolved_id c). destruct (Py.truthy (resolved_id c)); cbn [negb map].
    + rewrite children_SubElement, <- app_assoc. reflexivity.
    + reflexivity.
Qed.

Lemma converter_children_programmes all_programs tv :
  children (fold_left
              (fun tv channel_programs =>
                 fold_left (fun tv program =>
                              SubElement tv (programme_elem repr_container program))
                           channel_programs tv)
              all_programs tv)
  = children tv ++ map (programme_elem repr_container) (List.concat all_programs).
Proof.
  revert tv. induction all_programs as [|ps all_programs IH]; intros tv.
  - simpl. now rewrite app_nil_r.
  - cbn [fold_left List.concat]. rewrite IH.
    rewrite (children_fold_SubElement (programme_elem repr_container)).
    rewrite map_app, app_assoc. reflexivity.
Qed.

(** The children of the document of [gracenote_to_xmltv.py], in order. *)
Lemma converter_children channels all_programs :
  children (create_xmltv repr_container channels all_programs)
  = map kept_channel_elem (filter (fun c => Py.truthy (resolved_id c)) channels)
    ++ map (programme_elem repr_container) (List.concat all_programs).
Proof.
  unfold create_xmltv. cbv zeta.
  rewrite converter_children_programmes, converter_children_channels. reflexivity.
Qed.

Lemma converter_tag_programme program :
  tag (programme_elem repr_container program) = "programme".
Proof.
  unfold programme_elem.
  destruct (Py.truthy (episode_title program)), (Py.truthy (short_desc program)),
    (Py.truthy (season program) && Py.truthy (episode program)),
    (Py.truthy (rating program)); reflexivity.
Qed.

(** In the document of [gracenote_to_xmltv.py] every [channel] child
    precedes every [programme] child. *)
Lemma converter_document_order channels all_programs :
  channels_precede_programmes (create_xmltv repr_container channels all_programs).
Proof.
  eapply channels_then_programmes_ordered.
  - apply converter_children.
  - apply Forall_forall. intros e He. apply in_map_iff in He.
    destruct He as [c [<- _]]. reflexivity.
  - apply Forall_forall. intros e He. apply in_map_iff in He.
    destruct He as [p [<- _]]. apply converter_tag_programme.
Qed.

(** A channel whose resolved id is falsy gets no element; every other
    channel gets one, carrying that id. *)
Lemma channels_without_id_are_skipped channels all_programs :
  children_tagged (create_xmltv repr_container channels all_programs) "channel"
  = map kept_channel_elem (filter (fun c => Py.truthy (resolved_id c)) channels).
Proof.
  unfold children_tagged. rewrite converter_children, filter_app.
  assert (H1 : forall l : list dict,
             filter (fun c : PyElement => String.eqb (tag c) "channel")
                    (map kept_channel_elem l) = map kept_channel_elem l).
  { induction l as [|c l IH]; [reflexivity|]. simpl. now rewrite IH. }
  assert (H2 : forall l,
             filter (fun c : PyElement => String.eqb (tag c) "channel")
                    (map (programme_elem repr_container) l) = []).
  { induction l as [|p l IH]; [reflexivity|]. cbn [map filter].
    rewrite converter_tag_programme. exact IH. }
  rewrite H1, H2. apply app_nil_r.
Qed.
End Env.

End GracenoteToXmltvFacts.

(* ================================================================== *)
(** ** Claims about document order and channel elements *)
(* ================================================================== *)

Section OrderClaims.
Import GridDoc FuelDoc.
Variable repr_container : Py.value -> string.

(** C1: in the documents of [gracenote.py] and [gracenote_to_xmltv.py] every
    [channel] child of [tv] precedes every [programme] child, for all inputs.
    The builder of [service/fuel/main.py] adds each channel followed by its
    own programmes: for two channels, the first with one titled program, the
    children are [channel], [programme], [channel], and the [programme]
    precedes the second [channel]. *)
Theorem document_order_of_the_builders :
  (forall channels programs,
      channels_precede_programmes (Gracenote.create_xmltv repr_container channels programs))
  /\
  (forall channels all_programs,
      channels_precede_programmes
        (GracenoteToXmltv.create_xmltv repr_container channels all_programs))
  /\
  map (@tag _ _) (children (Fuel.create_xmltv_output two_channels))
    = ["channel"; "programme"; "channel"]
  /\
  channels_first false (children (Fuel.create_xmltv_output two_channels)) = false
  /\
  ~ channels_precede_programmes (Fuel.create_xmltv_output two_channels).
Proof.
  split; [apply GracenoteFacts.gracenote_document_order|].
  split; [apply GracenoteToXmltvFacts.converter_document_order|].
  split; [reflexivity|]. split; [reflexivity|].
  intros H.
  assert (L : (2 < 1)%nat).
  { eapply (H 1%nat 2%nat); reflexivity. }
  lia.
Qed.

(** C7: [gracenote_to_xmltv.py] emits a [channel] element exactly for the
    channels whose resolved id is truthy, in input order.  [gracenote.py]
    has no such test: it emits one [channel] element per record, and a record
    with neither [xmltv_id] nor [site_id] yields [<channel id="None">]. *)
Theorem channel_elements_of_the_builders :
  (forall channels all_programs,
      children_tagged (GracenoteToXmltv.create_xmltv repr_container channels all_programs)
                      "channel"
      = map kept_channel_elem (filter (fun c => Py.truthy (resolved_id c)) channels))
  /\
  (forall channels programs,
      children_tagged (Gracenote.create_xmltv repr_container channels programs) "channel"
      = map (Gracenote.channel_elem repr_container) channels)
  /\
  Py.truthy (resolved_id orphan_channel) = false
  /\
  children (Gracenote.create_xmltv repr_container [orphan_channel] [])
  = [mkElement "channel" [("id", Py.VStr "None")] Py.VNone
       [mkElement "display-name" [] (Py.VStr "Orphan") []]].
Proof.
  split; [apply GracenoteToXmltvFacts.channels_without_id_are_skipped|].
  split; [|split; reflexivity].
  intros channels programs. unfold children_tagged.
  rewrite GracenoteFacts.gracenote_children, filter_app.
  assert (H1 : forall l,
             filter (fun c : PyElement => String.eqb (tag c) "channel")
                    (map (Gracenote.channel_elem repr_container) l)
             = map (Gracenote.channel_elem repr_container) l).
  { induction l as [|c l IH]; [reflexivity|]. simpl. now rewrite IH. }
  assert (H2 : forall l,
             filter (fun c : PyElement => String.eqb (tag c) "channel")
                    (map (Gracenote.programme_elem repr_container) l) = []).
  { induction l as [|p l IH]; [reflexivity|]. cbn [map filter].
    rewrite GracenoteFacts.gracenote_tag_programme. exact IH. }
  rewrite H1, H2. apply app_nil_r.
Qed.

End OrderClaims.

(* ================================================================== *)
(** ** Claims about the children of a [programme] element *)
(* ================================================================== *)

(** C5, as stated, fails for [gracenote.py], which tests [is not None]: a
    program of season 0, episode 1 gets both [episode-num] children. *)
Lemma season_zero_is_emitted_by_gracenote :
  Gracenote.season GridDoc.pilot_entry = Py.VInt 0 /\
  Gracenote.episode GridDoc.pilot_entry = Py.VInt 1 /\
  map (@text _ _)
      (children_tagged (Gracenote.programme_elem GridDoc.no_repr GridDoc.pilot_entry)
                       "episode-num")
  = [Py.VStr "0.1.0"; Py.VStr "S0E1"].
Proof. repeat split. Qed.

(** C8, as stated, fails for [service/fuel/main.py], which sets [lang]
    without a test: with an empty language the [title] and [desc] children
    still carry a [lang] attribute. *)
Lemma fuel_sets_lang_when_language_is_empty :
  children (Fuel.programme_elem "a" "" (Fuel.mkProgram "" "" "Morning News" "Headlines"))
  = [ mkElement "title" [("lang", "")] (Some "Morning News") [];
      mkElement "desc" [("lang", "")] (Some "Headlines") [] ] /\
  forallb (fun c => has_attr c "lang")
          (children (Fuel.programme_elem "a" ""
                       (Fuel.mkProgram "" "" "Morning News" "Headlines"))) = true.
Proof. split; reflexivity. Qed.

Section ProgrammeClaims.
Import GridDoc FuelDoc.
Variable repr_container : Py.value -> string.

Ltac split_children H :=
  repeat (destruct H as [<-|H]; [try discriminate|]); try contradiction.

(** C5 (amended): in [gracenote_to_xmltv.py] a program whose season or
    episode is falsy, in particular season 0 with episode 1, gets no
    [episode-num] child; when both are truthy it gets the two children, of
    systems [xmltv_ns] and [onscreen].  In [gracenote.py], which tests
    [is not None], a program of season 0, episode 1 gets the two
    [episode-num] children ["0.1.0"] and ["S0E1"]; there the two children,
    of systems [xmltv_ns] and [onscreen] and of texts
    [<season>.<episode>.0] and [S<season>E<episode>], are emitted whenever
    neither value is [None], and none is emitted when the season or the
    episode is [None]. *)
Theorem episode_numbers_for_season_zero :
  (forall p : GracenoteToXmltv.program,
      Py.truthy (GracenoteToXmltv.season p) && Py.truthy (GracenoteToXmltv.episode p)
      = false ->
      children_tagged (GracenoteToXmltv.programme_elem repr_container p) "episode-num" = [])
  /\
  (forall p : GracenoteToXmltv.program,
      GracenoteToXmltv.season p = Py.VInt 0 -> GracenoteToXmltv.episode p = Py.VInt 1 ->
      children_tagged (GracenoteToXmltv.programme_elem repr_container p) "episode-num" = [])
  /\
  (forall p : Gracenote.program_entry,
      Gracenote.season p = Py.VInt 0 -> Gracenote.episode p = Py.VInt 1 ->
      map (@text _ _)
          (children_tagged (Gracenote.programme_elem repr_container p) "episode-num")
      = [Py.VStr "0.1.0"; Py.VStr "S0E1"])
  /\
  (forall p : Gracenote.program_entry,
      is_none (Gracenote.season p) = true \/ is_none (Gracenote.episode p) = true ->
      children_tagged (Gracenote.programme_elem repr_container p) "episode-num" = [])
  /\
  (forall p : Gracenote.program_entry,
      is_none (Gracenote.season p) = false -> is_none (Gracenote.episode p) = false ->
      children_tagged (Gracenote.programme_elem repr_container p) "episode-num"
      = episode_nums (Py.str repr_container (Gracenote.season p))
                     (Py.str repr_container (Gracenote.episode p)))
  /\
  (forall p : GracenoteToXmltv.program,
      Py.truthy (GracenoteToXmltv.season p) = true ->
      Py.truthy (GracenoteToXmltv.episode p) = true ->
      children_tagged (GracenoteToXmltv.programme_elem repr_container p) "episode-num"
      = episode_nums (Py.str repr_container (GracenoteToXmltv.season p))
                     (Py.str repr_container (GracenoteToXmltv.episode p))).
Proof.
  assert (G : forall p : GracenoteToXmltv.program,
      Py.truthy (GracenoteToXmltv.season p) && Py.truthy (GracenoteToXmltv.episode p)
      = false ->
      children_tagged (GracenoteToXmltv.programme_elem repr_container p) "episode-num" = []).
  { intros p H. unfold GracenoteToXmltv.programme_elem, GracenoteToXmltv.with_lang.
    rewrite H.
    destruct (Py.truthy (GracenoteToXmltv.lang p)),
      (Py.truthy (GracenoteToXmltv.episode_title p)),
      (Py.truthy (GracenoteToXmltv.short_desc p)),
      (Py.truthy (GracenoteToXmltv.rating p)); reflexivity. }
  split; [exact G|]. split; [|split; [|split; [|split]]].
  - intros p Hs He. apply G. now rewrite Hs.
  - intros p Hs He. unfold Gracenote.programme_elem, Gracenote.with_lang.
    rewrite Hs, He.
    destruct (Py.truthy (Gracenote.language p)),
      (Py.truthy (Gracenote.episode_title p)),
      (Py.truthy (Gracenote.description p)),
      (Py.truthy (Gracenote.rating p)); reflexivity.
  - intros p H. unfold Gracenote.programme_elem, Gracenote.with_lang.
    assert (E : negb (is_none (Gracenote.season p))
                && negb (is_none (Gracenote.episode p)) = false).
    { destruct H as [H|H]; rewrite H; [reflexivity | apply andb_false_r]. }
    rewrite E.
    destruct (Py.truthy (Gracenote.language p)),
      (Py.truthy (Gracenote.episode_title p)),
      (Py.truthy (Gracenote.description p)),
      (Py.truthy (Gracenote.rating p)); reflexivity.
  - intros p Hs He. unfold Gracenote.programme_elem, Gracenote.with_lang.
    rewrite Hs, He.
    destruct (Py.truthy (Gracenote.language p)),
      (Py.truthy (Gracenote.episode_title p)),
      (Py.truthy (Gracenote.description p)),
      (Py.truthy (Gracenote.rating p)); reflexivity.
  - intros p Hs He. unfold GracenoteToXmltv.programme_elem, GracenoteToXmltv.with_lang.
    rewrite Hs, He.
    destruct (Py.truthy (GracenoteToXmltv.lang p)),
      (Py.truthy (GracenoteToXmltv.episode_title p)),
      (Py.truthy (GracenoteToXmltv.short_desc p)),
      (Py.truthy (GracenoteToXmltv.rating p)); reflexivity.
Qed.

(** C8 (amended): in [gracenote.py] and [gracenote_to_xmltv.py] the [title],
    [sub-title] and [desc] children of a [programme] element carry a [lang]
    attribute exactly when the language of the program is truthy, and then
    its value is that language; in [gracenote.py] that language is the
    [language] entry of the owning channel.  In [service/fuel/main.py] the
    children of a [programme] element, [title] and [desc], always carry
    [lang], whatever the language. *)
Theorem lang_attribute_of_text_children :
  (forall (p : Gracenote.program_entry) (c : PyElement),
      In c (children (Gracenote.programme_elem repr_container p)) ->
      is_text_child c = true ->
      has_attr c "lang" = Py.truthy (Gracenote.language p) /\
      (Py.truthy (Gracenote.language p) = true ->
       attrib c = [("lang", Gracenote.language p)]))
  /\
  (forall utc_offset channel_data program entry,
      Gracenote.program_entry_of utc_offset channel_data program = Some entry ->
      Gracenote.language entry = Py.get channel_data "language")
  /\
  (forall (p : GracenoteToXmltv.program) (c : PyElement),
      In c (children (GracenoteToXmltv.programme_elem repr_container p)) ->
      is_text_child c = true ->
      has_attr c "lang" = Py.truthy (GracenoteToXmltv.lang p) /\
      (Py.truthy (GracenoteToXmltv.lang p) = true ->
       attrib c = [("lang", GracenoteToXmltv.lang p)]))
  /\
  (forall cid language (p : Fuel.program_data) (c : Fuel.Element),
      In c (children (Fuel.programme_elem cid language p)) ->
      attrib c = [("lang", language)] /\ (tag c = "title" \/ tag c = "desc")).
Proof.
  split; [|split; [|split]].
  - intros p c Hin Ht.
    unfold Gracenote.programme_elem, Gracenote.with_lang in Hin.
    destruct (Py.truthy (Gracenote.language p)) eqn:EL,
      (Py.truthy (Gracenote.episode_title p)),
      (Py.truthy (Gracenote.description p)),
      (negb (is_none (Gracenote.season p)) && negb (is_none (Gracenote.episode p))),
      (Py.truthy (Gracenote.rating p));
      cbn in Hin; split_children Hin; split; try reflexivity; discriminate.
  - intros utc_offset channel_data program entry H.
    unfold Gracenote.program_entry_of in H.
    destruct program as [| | | | |d]; try discriminate H.
    destruct (Datetime.fromtimestamp utc_offset (Py.get d "startTime")); [|discriminate H].
    destruct (Datetime.fromtimestamp utc_offset (Py.get d "endTime")); [|discriminate H].
    destruct (Py.get_default d "program" (Py.VDict [])); try discriminate H.
    injection H as <-. reflexivity.
  - intros p c Hin Ht.
    unfold GracenoteToXmltv.programme_elem, GracenoteToXmltv.with_lang in Hin.
    destruct (Py.truthy (GracenoteToXmltv.lang p)) eqn:EL,
      (Py.truthy (GracenoteToXmltv.episode_title p)),
      (Py.truthy (GracenoteToXmltv.short_desc p)),
      (Py.truthy (GracenoteToXmltv.season p) && Py.truthy (GracenoteToXmltv.episode p)),
      (Py.truthy (GracenoteToXmltv.rating p));
      cbn in Hin; split_children Hin; split; try reflexivity; discriminate.
  - intros cid language p c Hin.
    rewrite FuelFacts.fuel_children_programme in Hin.
    destruct (Py.str_truthy (Fuel.desc p)); cbn in Hin; split_children Hin;
      split; try reflexivity; auto.
Qed.

End ProgrammeClaims.

Lemma episode_numbers_for_season_zero_witness :
  children_tagged (GracenoteToXmltv.programme_elem GridDoc.no_repr GridDoc.pilot_program)
                  "episode-num" = []
  /\
  map (@text _ _)
      (children_tagged (Gracenote.programme_elem (fun _ => "?") GridDoc.pilot_entry)
                       "episode-num")
  = [Py.VStr "0.1.0"; Py.VStr "S0E1"]
  /\
  children_tagged (Gracenote.programme_elem GridDoc.no_repr GridDoc.unnumbered_entry)
                  "episode-num" = []
  /\
  children_tagged (Gracenote.programme_elem GridDoc.no_repr GridDoc.pilot_entry)
                  "episode-num"
  = [ GridDoc.episode_num "xmltv_ns" "0.1.0"; GridDoc.episode_num "onscreen" "S0E1" ].
Proof.
  split; [|split; [|split]].
  - apply (proj1 (proj2 (episode_numbers_for_season_zero GridDoc.no_repr)));
      reflexivity.
  - apply (proj1 (proj2 (proj2 (episode_numbers_for_season_zero (fun _ => "?")))));
      reflexivity.
  - apply (proj1 (proj2 (proj2 (proj2 (episode_numbers_for_season_zero GridDoc.no_repr))))).
    left. reflexivity.
  - apply (proj1 (proj2 (proj2 (proj2 (proj2
             (episode_numbers_for_season_zero GridDoc.no_repr))))) GridDoc.pilot_entry);
      reflexivity.
Defined.

Lemma lang_attribute_of_text_children_witness :
  (has_attr (mkElement "title" [("lang", Py.VStr "en")] (Py.VStr "Pilot") [] : PyElement)
            "lang"
   = Py.truthy (Gracenote.language GridDoc.pilot_entry))
  /\
  (attrib (mkElement "title" [("lang", "fr")] (Some "Morning News") [] : Fuel.Element)
   = [("lang", "fr")]).
Proof.
  split.
  - apply (proj1 (lang_attribute_of_text_children GridDoc.no_repr)
             GridDoc.pilot_entry
             (mkElement "title" [("lang", Py.VStr "en")] (Py.VStr "Pilot") [])).
    + left. reflexivity.
    + reflexivity.
  - apply (proj2 (proj2 (proj2 (lang_attribute_of_text_children GridDoc.no_repr)))
             "a" "fr" FuelDoc.untimed_program
             (mkElement "title" [("lang", "fr")] (Some "Morning News") [])).
    left. reflexivity.
Defined.

(* ================================================================== *)
(** ** The end-to-end scenario of [gracenote.py] *)
(* ================================================================== *)

Section Scenario.
Import GridDoc.
Variable repr_container : Py.value -> string.
Variable utc_offset : Z -> Z.
Variable fetch_program_data : Gracenote.dict -> string -> Py.value.

Open Scope Z_scope.

(** Around the turn of the year 2024 the conversion to local time
    succeeds. *)
Lemma fromtimestamp_turn_of_2024 (t : Z) :
  1704014400 <= t + utc_offset t < 1704240000 ->
  exists dt, Datetime.fromtimestamp utc_offset (Py.VInt t) = Some dt.
Proof.
  intros H. unfold Datetime.fromtimestamp.
  set (l := t + utc_offset t) in *.
  assert (D : l / 86400 = 19722 \/ l / 86400 = 19723 \/ l / 86400 = 19724).
  { pose proof (Z.div_mod l 86400 ltac:(lia)) as E.
    pose proof (Z.mod_pos_bound l 86400 ltac:(lia)) as B. lia. }
  destruct D as [D|[D|D]]; rewrite D.
  - change (Datetime.civil_from_days 19722) with (2023, 12, 31). eexists. reflexivity.
  - change (Datetime.civil_from_days 19723) with (2024, 1, 1). eexists. reflexivity.
  - change (Datetime.civil_from_days 19724) with (2024, 1, 2). eexists. reflexivity.
Qed.

Close Scope Z_scope.

Variable channel : Gracenote.dict.
Hypothesis channel_id_is_5 : resolved_id channel = Py.VStr "5".
Hypothesis channel_language_is_en : Py.get channel "language" = Py.VStr "en".

Lemma news_program_entry start_time end_time :
  Datetime.fromtimestamp utc_offset (Py.VInt 1704100800) = Some start_time ->
  Datetime.fromtimestamp utc_offset (Py.VInt 1704104400) = Some end_time ->
  Gracenote.program_entry_of utc_offset channel news_program
  = Some (news_entry (Datetime.strftime start_time) (Datetime.strftime end_time)).
Proof.
  intros Hs He. unfold Gracenote.program_entry_of, news_program.
  change (Py.get _ "startTime") with (Py.VInt 1704100800).
  change (Py.get _ "endTime") with (Py.VInt 1704104400).
  rewrite Hs, He. cbn [Py.get_default Py.lookup String.eqb Ascii.eqb Bool.eqb].
  fold (resolved_id channel). rewrite channel_id_is_5, channel_language_is_en.
  reflexivity.
Qed.

Lemma news_programme_elem start_str end_str :
  Gracenote.programme_elem repr_container (news_entry start_str end_str)
  = news_programme start_str end_str.
Proof. reflexivity. Qed.

(** What one date of the window contributes. *)
Lemma process_date_news (entry : Gracenote.program_entry) all_programs d :
  Gracenote.program_entry_of utc_offset channel news_program = Some entry ->
  fetch_program_data channel d = news_grid ->
  Gracenote.process_date utc_offset fetch_program_data channel all_programs d
  = Ok (all_programs ++ (if String.eqb "2024-01-01" d then [entry] else [])).
Proof.
  intros He Hf. unfold Gracenote.process_date. rewrite Hf. cbv zeta.
  unfold news_grid, Py.get_default. cbn [Py.truthy negb Py.lookup].
  destruct (String.eqb "2024-01-01" d).
  - cbn [Gracenote.iterate fold_left]. unfold Gracenote.add_program. now rewrite He.
  - cbn [Gracenote.iterate fold_left]. now rewrite app_nil_r.
Qed.

Lemma process_dates_news (entry : Gracenote.program_entry) ds acc :
  Gracenote.program_entry_of utc_offset channel news_program = Some entry ->
  (forall d, In d ds -> fetch_program_data channel d = news_grid) ->
  fold_left
    (fun acc date_str =>
       bind acc (fun ps =>
       Gracenote.process_date utc_offset fetch_program_data channel ps date_str))
    ds (Ok acc)
  = Ok (acc ++ flat_map (fun d => if String.eqb "2024-01-01" d then [entry] else []) ds).
Proof.
  intros He. revert acc. induction ds as [|d ds IH]; intros acc Hf.
  - simpl. now rewrite app_nil_r.
  - cbn [fold_left bind flat_map].
    rewrite (@process_date_news entry acc d He (Hf d (or_introl eq_refl))).
    rewrite IH by (intros d' Hd'; apply Hf; now right).
    now rewrite <- app_assoc.
Qed.

Variable dates : list string.
Hypothesis fetch_gives_news_grid :
  forall d, In d dates -> fetch_program_data channel d = news_grid.
Hypothesis offset_at_start : (-86400 < utc_offset 1704100800 < 86400)%Z.
Hypothesis offset_at_end : (-86400 < utc_offset 1704104400 < 86400)%Z.

Lemma process_channel_news (entry : Gracenote.program_entry) :
  Gracenote.program_entry_of utc_offset channel news_program = Some entry ->
  Gracenote.process_channel utc_offset fetch_program_data channel dates
  = Ok (flat_map (fun d => if String.eqb "2024-01-01" d then [entry] else []) dates).
Proof.
  intros He. unfold Gracenote.process_channel.
  now rewrite (@process_dates_news entry dates [] He fetch_gives_news_grid).
Qed.

(** C6: for a channel whose identifier resolves to ["5"] with language
    ["en"], when the upstream answers every date of the window with the
    grid [{"2024-01-01": [{startTime: 1704100800, endTime: 1704104400,
    program: {title: "News", season: 2, episode: 5}}]}] and the window holds
    ["2024-01-01"], the document built by [gracenote.py] has a [programme]
    child with [channel="5"], a [title] of text ["News"] and exactly two
    [episode-num] children, of texts ["2.5.0"] and ["S2E5"]; every
    [programme] child of the document is this element.  The local zone is
    any offset of less than a day. *)
Theorem end_to_end_news_scenario :
  In "2024-01-01" dates ->
  exists tv start_str end_str,
    Gracenote.main_tree repr_container utc_offset fetch_program_data [channel] dates
    = Ok tv /\
    In (news_programme start_str end_str) (children tv) /\
    (forall e, In e (children tv) -> tag e = "programme" ->
               e = news_programme start_str end_str) /\
    tag (news_programme start_str end_str) = "programme" /\
    ET.get (news_programme start_str end_str) "channel" Py.VNone = Py.VStr "5" /\
    option_map (@text _ _) (find (news_programme start_str end_str) "title")
    = Some (Py.VStr "News") /\
    map (@text _ _) (children_tagged (news_programme start_str end_str) "episode-num")
    = [Py.VStr "2.5.0"; Py.VStr "S2E5"].
Proof.
  intros Hin.
  destruct (@fromtimestamp_turn_of_2024 1704100800%Z ltac:(lia))
    as [start_time Hs].
  destruct (@fromtimestamp_turn_of_2024 1704104400%Z ltac:(lia))
    as [end_time He].
  pose proof (@news_program_entry start_time end_time Hs He) as Hentry.
  set (start_str := Datetime.strftime start_time) in *.
  set (end_str := Datetime.strftime end_time) in *.
  exists (Gracenote.create_xmltv repr_container [channel]
            (flat_map (fun d => if String.eqb "2024-01-01" d
                                then [news_entry start_str end_str] else []) dates)),
    start_str, end_str.
  split.
  { unfold Gracenote.main_tree. cbn [fold_left bind].
    rewrite (@process_channel_news _ Hentry). reflexivity. }
  rewrite GracenoteFacts.gracenote_children.
  split.
  { apply in_or_app. right. rewrite <- news_programme_elem. apply in_map.
    apply in_flat_map. exists "2024-01-01". split; [exact Hin|]. left. reflexivity. }
  split.
  { intros e He' Htag. apply in_app_or in He'. destruct He' as [He'|He'].
    - destruct He' as [<-|[]]. discriminate Htag.
    - apply in_map_iff in He'. destruct He' as [p [<- Hp]].
      apply in_flat_map in Hp. destruct Hp as [d [_ Hp]].
      destruct (String.eqb "2024-01-01" d); [|contradiction].
      destruct Hp as [<-|[]]. apply news_programme_elem. }
  repeat split.
Qed.

End Scenario.

Lemma end_to_end_news_scenario_witness :
  exists tv start_str end_str,
    Gracenote.main_tree GridDoc.no_repr (fun _ => (-18000)%Z) (fun _ _ => GridDoc.news_grid)
                        [GridDoc.test_channel] GridDoc.three_days
    = Ok tv /\
    In (GridDoc.news_programme start_str end_str) (children tv) /\
    (forall e, In e (children tv) -> tag e = "programme" ->
               e = GridDoc.news_programme start_str end_str) /\
    tag (GridDoc.news_programme start_str end_str) = "programme" /\
    ET.get (GridDoc.news_programme start_str end_str) "channel" Py.VNone = Py.VStr "5" /\
    option_map (@text _ _) (find (GridDoc.news_programme start_str end_str) "title")
    = Some (Py.VStr "News") /\
    map (@text _ _)
        (children_tagged (GridDoc.news_programme start_str end_str) "episode-num")
    = [Py.VStr "2.5.0"; Py.VStr "S2E5"].
Proof.
  apply (end_to_end_news_scenario GridDoc.no_repr (fun _ => (-18000)%Z)
           (fun _ _ => GridDoc.news_grid) GridDoc.test_channel).
  - reflexivity.
  - reflexivity.
  - intros d _. reflexivity.
  - lia.
  - lia.
  - left. reflexivity.
Defined.

(* ================================================================== *)
(** ** Further properties of [service/fuel/main.py] *)
(* ================================================================== *)

Module StripFacts.

Lemma rstrip_idempotent (s : string) : Py.rstrip (Py.rstrip s) = Py.rstrip s.
Proof.
  induction s as [|c s IH]; [reflexivity|].
  cbn [Py.rstrip].
  destruct (Py.isspace c && String.eqb (Py.rstrip s) "") eqn:E; [reflexivity|].
  cbn [Py.rstrip]. rewrite IH, E. reflexivity.
Qed.

Lemma lstrip_head (s : string) :
  Py.lstrip s = "" \/ exists c s', Py.lstrip s = String c s' /\ Py.isspace c = false.
Proof.
  induction s as [|c s IH]; [now left|].
  cbn [Py.lstrip]. destruct (Py.isspace c) eqn:E; [exact IH|].
  right. exists c, s. auto.
Qed.

(** Trimming twice is trimming once. *)
Lemma strip_idempotent (s : string) : Py.strip (Py.strip s) = Py.strip s.
Proof.
  unfold Py.strip. destruct (lstrip_head s) as [E|[c [s' [E Hc]]]]; rewrite E.
  - reflexivity.
  - cbn [Py.rstrip]. rewrite Hc. cbn [andb Py.lstrip]. rewrite Hc.
    cbn [Py.rstrip]. rewrite Hc, rstrip_idempotent. reflexivity.
Qed.

Lemma stripped_text_trimmed (x : option Fuel.Element) :
  Py.strip (Fuel.stripped_text x "") = Fuel.stripped_text x "".
Proof.
  unfold Fuel.stripped_text. destruct x as [e|]; [|reflexivity].
  destruct (text e) as [t|]; [|reflexivity].
  destruct (Py.str_truthy t); [apply strip_idempotent | reflexivity].
Qed.

Lemma scan_child_trimmed (acc : string * string) (child : Fuel.Element) :
  Py.strip (fst acc) = fst acc -> Py.strip (snd acc) = snd acc ->
  Py.strip (fst (Fuel.scan_child acc child)) = fst (Fuel.scan_child acc child) /\
  Py.strip (snd (Fuel.scan_child acc child)) = snd (Fuel.scan_child acc child).
Proof.
  intros H1 H2. unfold Fuel.scan_child.
  destruct (Py.endswith (tag child) "title" || Py.endswith (tag child) "name").
  - destruct (text child) as [t|]; [|auto].
    destruct (Py.str_truthy t); [|auto]. cbn [fst snd].
    split; [apply strip_idempotent | exact H2].
  - destruct (Py.endswith (tag child) "desc" || Py.endswith (tag child) "description");
      [|auto].
    destruct (text child) as [t|]; [|auto].
    destruct (Py.str_truthy t); [|auto]. cbn [fst snd].
    split; [exact H1 | apply strip_idempotent].
Qed.

Lemma scan_children_trimmed (l : list Fuel.Element) (acc : string * string) :
  Py.strip (fst acc) = fst acc -> Py.strip (snd acc) = snd acc ->
  Py.strip (fst (fold_left Fuel.scan_child l acc)) = fst (fold_left Fuel.scan_child l acc) /\
  Py.strip (snd (fold_left Fuel.scan_child l acc)) = snd (fold_left Fuel.scan_child l acc).
Proof.
  revert acc. induction l as [|c l IH]; intros acc H1 H2; [auto|].
  cbn [fold_left]. destruct (scan_child_trimmed acc c H1 H2) as [G1 G2].
  now apply IH.
Qed.

End StripFacts.

Section FuelExtras.
Import Fuel FuelDoc FuelFacts ExtractFacts MainDoc.

(** Every record of [parse_programs] comes from one of the three loop
    bodies. *)
Lemma parse_programs_cases (xml_root : Element) (language : string) (r : program_data) :
  In r (parse_programs xml_root language) ->
  exists e, r = programme_record e \/ r = item_record e \/ r = generic_record e.
Proof.
  intros H.
  destruct (findall_descendant xml_root "programme") as [|p ps] eqn:E1.
  - destruct (findall_descendant xml_root "item") as [|i items] eqn:E2.
    + rewrite parse_programs_generic in H by assumption.
      unfold generic_candidates in H. apply filter_In in H. destruct H as [H _].
      apply in_map_iff in H. destruct H as [e [<- _]]. exists e. auto.
    + rewrite parse_programs_item in H by (try assumption; rewrite E2; discriminate).
      apply in_map_iff in H. destruct H as [e [<- _]]. exists e. auto.
  - rewrite parse_programs_programme in H by (rewrite E1; discriminate).
    apply in_map_iff in H. destruct H as [e [<- _]]. exists e. auto.
Qed.

(** X1: whatever the shape of the document, the title and the description of
    every record returned by [parse_programs], and the display name returned
    by [parse_channel_data], are trimmed: stripping them again changes
    nothing. *)
Theorem extracted_texts_are_trimmed (xml_root : Element) (language : string) :
  (forall r, In r (parse_programs xml_root language) ->
             Py.strip (title r) = title r /\ Py.strip (desc r) = desc r)
  /\ Py.strip (parse_channel_data xml_root) = parse_channel_data xml_root.
Proof.
  split.
  - intros r H. destruct (parse_programs_cases _ _ _ H) as [e [-> | [-> | ->]]].
    + split; apply StripFacts.stripped_text_trimmed.
    + split; apply StripFacts.stripped_text_trimmed.
    + unfold generic_record. cbn [title desc].
      apply StripFacts.scan_children_trimmed; reflexivity.
  - unfold parse_channel_data. cbv zeta.
    destruct (match find xml_root "channel" with
              | Some c => Some c
              | None => find_descendant xml_root "channel"
              end) as [c|]; [|reflexivity].
    apply StripFacts.stripped_text_trimmed.
Qed.

Lemma extracted_texts_are_trimmed_witness :
  Py.strip (title (programme_record morning_news)) = title (programme_record morning_news)
  /\ title (programme_record morning_news) = "Morning News".
Proof.
  split; [|reflexivity].
  apply (proj1 (extracted_texts_are_trimmed mixed_listing "en")).
  left. reflexivity.
Defined.

Lemma filter_tag_map_const (X : Type) (f : X -> Element) (t u : string) (l : list X) :
  (forall x, tag (f x) = u) ->
  filter (fun c : Element => String.eqb (tag c) t) (map f l)
  = if String.eqb u t then map f l else [].
Proof.
  intros H. induction l as [|x l IH]; cbn [map filter].
  - now destruct (String.eqb u t).
  - rewrite H, IH. now destruct (String.eqb u t).
Qed.

Lemma channel_block_channels (ci : channel_info) :
  filter (fun c : Element => String.eqb (tag c) "channel") (channel_block ci)
  = [channel_elem (channel_id ci) (display_name ci)].
Proof.
  unfold channel_block. cbn [filter]. rewrite fuel_tag_channel. cbn [String.eqb].
  rewrite (@filter_tag_map_const _ _ "channel" "programme")
    by (intros; apply fuel_tag_programme).
  reflexivity.
Qed.

Lemma channel_block_programmes (ci : channel_info) :
  filter (fun c : Element => String.eqb (tag c) "programme") (channel_block ci)
  = programmes_of ci.
Proof.
  unfold channel_block, programmes_of. cbn [filter]. rewrite fuel_tag_channel.
  rewrite (@filter_tag_map_const _ _ "programme" "programme")
    by (intros; apply fuel_tag_programme).
  reflexivity.
Qed.

Lemma filter_flat_map (X Y : Type) (f : Y -> bool) (g : X -> list Y) (l : list X) :
  filter f (flat_map g l) = flat_map (fun x => filter f (g x)) l.
Proof.
  induction l as [|x l IH]; [reflexivity|].
  cbn [flat_map]. now rewrite filter_app, IH.
Qed.

Lemma fuel_children_by_tag (all_channels_data : list channel_info) :
  children_tagged (create_xmltv_output all_channels_data) "channel"
  = map (fun ci => channel_elem (channel_id ci) (display_name ci)) all_channels_data
  /\
  children_tagged (create_xmltv_output all_channels_data) "programme"
  = flat_map programmes_of all_channels_data.
Proof.
  unfold children_tagged. rewrite children_create_xmltv_output, !filter_flat_map.
  split.
  - induction all_channels_data as [|ci l IH]; [reflexivity|].
    cbn [flat_map map]. now rewrite channel_block_channels, IH.
  - induction all_channels_data as [|ci l IH]; [reflexivity|].
    cbn [flat_map]. now rewrite channel_block_programmes, IH.
Qed.

(** X2: the fuel builder skips no channel and reorders nothing: the
    [channel] children of the document are the elements of the entries of
    [all_channels_data], in input order, and its [programme] children are
    the elements of the titled programs, channel by channel, in input
    order. *)
Theorem fuel_document_keeps_input_order (all_channels_data : list channel_info) :
  children_tagged (create_xmltv_output all_channels_data) "channel"
  = map (fun ci => channel_elem (channel_id ci) (display_name ci)) all_channels_data
  /\
  children_tagged (create_xmltv_output all_channels_data) "programme"
  = flat_map programmes_of all_channels_data.
Proof. exact (fuel_children_by_tag all_channels_data). Qed.

(** X3: in the fuel document every [programme] child refers to a [channel]
    child that precedes it: some earlier child is a [channel] element whose
    [id] is the [channel] attribute of the programme. *)
Theorem fuel_programme_follows_its_channel
        (all_channels_data : list channel_info) (i : nat) (p : Element) :
  nth_error (children (create_xmltv_output all_channels_data)) i = Some p ->
  tag p = "programme" ->
  exists j c,
    (j < i)%nat /\
    nth_error (children (create_xmltv_output all_channels_data)) j = Some c /\
    tag c = "channel" /\ get c "id" "" = get p "channel" "".
Proof.
  rewrite children_create_xmltv_output. revert i.
  induction all_channels_data as [|ci l IH]; intros i Hi Hp.
  - destruct i; discriminate Hi.
  - cbn [flat_map] in *.
    destruct (Nat.lt_ge_cases i (List.length (channel_block ci))) as [Hlt|Hge].
    + rewrite nth_error_app1 in Hi by exact Hlt.
      destruct i as [|i].
      * cbn in Hi. injection Hi as <-. discriminate Hp.
      * exists 0%nat, (channel_elem (channel_id ci) (display_name ci)).
        split; [lia|]. split; [reflexivity|]. split; [reflexivity|].
        unfold channel_block in Hi. cbn [nth_error] in Hi.
        apply nth_error_In in Hi. apply in_map_iff in Hi.
        destruct Hi as [q [<- _]].
        unfold get at 2. rewrite fuel_attrib_programme. reflexivity.
    + rewrite nth_error_app2 in Hi by exact Hge.
      destruct (IH _ Hi Hp) as [j [c [Hj [Hc [Ht Hid]]]]].
      exists (List.length (channel_block ci) + j)%nat, c.
      split; [lia|]. split; [|auto].
      rewrite nth_error_app2 by lia.
      replace (List.length (channel_block ci) + j - List.length (channel_block ci))%nat
        with j by lia.
      exact Hc.
Qed.

Lemma fuel_programme_follows_its_channel_witness :
  exists j c,
    (j < 1)%nat /\
    nth_error (children (create_xmltv_output two_channels)) j = Some c /\
    tag c = "channel" /\
    get c "id" "" = get (programme_elem "a" "en" untimed_program) "channel" "".
Proof.
  apply (@fuel_programme_follows_its_channel two_channels 1
           (programme_elem "a" "en" untimed_program)); reflexivity.
Defined.

(** X4: a feed in the item shape never provides a stop time: when no
    [programme] but some [item] lies below the root, every [programme]
    element built from the extracted records has the sentinel stop
    ["20000101010000"], and its start is the trimmed [pubDate] text or, when
    that is missing or blank, the sentinel start. *)
Theorem feed_items_get_the_sentinel_stop
        (xml_root : Element) (language cid name : string) (e : Element) :
  findall_descendant xml_root "programme" = [] ->
  findall_descendant xml_root "item" <> [] ->
  In e (children (create_xmltv_output
                    [mkChannelInfo cid name language (parse_programs xml_root language)])) ->
  tag e = "programme" ->
  get e "stop" "" = "20000101010000" /\
  exists item,
    In item (findall_descendant xml_root "item") /\
    get e "start" ""
    = (if Py.str_truthy (stripped_text (find item "pubDate") "")
       then stripped_text (find item "pubDate") "" else "20000101000000").
Proof.
  intros H1 H2 Hin Htag.
  destruct (programme_child_inv _ _ Hin Htag) as [ci [p [Hci [Hp [_ ->]]]]].
  destruct Hci as [<-|[]]. cbn [programs channel_id Fuel.language] in *.
  rewrite parse_programs_item in Hp by assumption.
  apply in_map_iff in Hp. destruct Hp as [item [<- Hitem]].
  unfold get. rewrite fuel_attrib_programme.
  cbn [attrib_lookup String.eqb Ascii.eqb Bool.eqb].
  split; [reflexivity|]. exists item. split; [exact Hitem|]. reflexivity.
Qed.

Lemma feed_items_get_the_sentinel_stop_witness :
  get (programme_elem "f" "en" (mkProgram "Mon, 01 Jan 2024 06:00:00 GMT" "" "Quiz" ""))
      "stop" "" = "20000101010000".
Proof.
  apply (fun H1 H2 H3 H4 =>
           proj1 (@feed_items_get_the_sentinel_stop two_item_feed "en" "f" "Feed"
                    (programme_elem "f" "en"
                       (mkProgram "Mon, 01 Jan 2024 06:00:00 GMT" "" "Quiz" ""))
                    H1 H2 H3 H4)).
  - reflexivity.
  - vm_compute. discriminate.
  - vm_compute. right. left. reflexivity.
  - reflexivity.
Defined.

(** X5: in the generic shape nothing extracted is lost: when neither a
    [programme] nor an [item] lies below the root, every record returned by
    [parse_programs] has a non-empty title, so the builder emits one
    [programme] element per record, in order. *)
Theorem generic_records_are_all_emitted
        (xml_root : Element) (language cid name : string) :
  findall_descendant xml_root "programme" = [] ->
  findall_descendant xml_root "item" = [] ->
  (forall r, In r (parse_programs xml_root language) -> title r <> "") /\
  children_tagged
    (create_xmltv_output
       [mkChannelInfo cid name language (parse_programs xml_root language)])
    "programme"
  = map (programme_elem cid language) (parse_programs xml_root language).
Proof.
  intros H1 H2.
  assert (Ht : forall r, In r (parse_programs xml_root language) -> titled r = true).
  { intros r Hr. rewrite parse_programs_generic in Hr by assumption.
    unfold generic_candidates in Hr. now apply filter_In in Hr. }
  split.
  - intros r Hr. apply str_truthy_true. exact (Ht r Hr).
  - rewrite (proj2 (fuel_children_by_tag _)).
    cbn [flat_map]. rewrite app_nil_r. unfold programmes_of.
    cbn [channel_id Fuel.language programs]. f_equal.
    apply forallb_filter_id. apply forallb_forall. exact Ht.
Qed.

Lemma generic_records_are_all_emitted_witness :
  parse_programs generic_listing "en" = [mkProgram "0600" "0700" "Quiz" ""] /\
  children_tagged
    (create_xmltv_output
       [mkChannelInfo "g" "Guide" "en" (parse_programs generic_listing "en")])
    "programme"
  = map (programme_elem "g" "en") (parse_programs generic_listing "en").
Proof.
  split; [reflexivity|].
  apply (@generic_records_are_all_emitted generic_listing "en" "g" "Guide");
    reflexivity.
Defined.

End FuelExtras.

Section FuelMainExtras.
Import Fuel FuelDoc FuelFacts MainDoc.
Variable fetch_epg_data : string -> option Element.

Lemma process_entry_app (acc : list channel_info) (entry : channel_entry) :
  process_entry fetch_epg_data acc entry = acc ++ process_entry fetch_epg_data [] entry.
Proof.
  unfold process_entry.
  destruct (entry_get entry "channel_id") as [id|]; [|now rewrite app_nil_r].
  destruct (negb (Py.str_truthy id)); [now rewrite app_nil_r|].
  destruct (fetch_epg_data id); reflexivity.
Qed.

Lemma collect_channels_flat (channels_data : list channel_entry) :
  collect_channels fetch_epg_data channels_data
  = flat_map (process_entry fetch_epg_data []) channels_data.
Proof.
  unfold collect_channels.
  assert (G : forall acc,
             fold_left (process_entry fetch_epg_data) channels_data acc
             = acc ++ flat_map (process_entry fetch_epg_data []) channels_data).
  { induction channels_data as [|e l IH]; intros acc; cbn [fold_left flat_map].
    - now rewrite app_nil_r.
    - rewrite IH, process_entry_app, <- app_assoc. reflexivity. }
  apply (G []).
Qed.

Lemma process_entry_ids (entry : channel_entry) :
  map channel_id (process_entry fetch_epg_data [] entry) = entry_id entry.
Proof.
  unfold process_entry, entry_id.
  destruct (entry_get entry "channel_id") as [id|]; [|reflexivity].
  destruct (Py.str_truthy id); cbn [negb]; [|reflexivity].
  destruct (fetch_epg_data id); reflexivity.
Qed.

Lemma collect_channels_ids (channels_data : list channel_entry) :
  map channel_id (collect_channels fetch_epg_data channels_data) = listed_ids channels_data.
Proof.
  rewrite collect_channels_flat. unfold listed_ids.
  induction channels_data as [|e l IH]; [reflexivity|].
  cbn [flat_map]. now rewrite map_app, process_entry_ids, IH.
Qed.

(** X6: the channels of the written document are those of the channels file.
    No document is produced exactly when no entry has a non-empty
    [channel_id]; otherwise the [id] attributes of the [channel] children
    are the non-empty identifiers of the file, in order, whether the fetches
    succeed or fail. *)
Theorem fuel_document_lists_the_file_channels (channels_data : list channel_entry) :
  (main_document fetch_epg_data channels_data = None <-> listed_ids channels_data = [])
  /\
  (forall doc, main_document fetch_epg_data channels_data = Some doc ->
               map (fun c => get c "id" "") (children_tagged doc "channel")
               = listed_ids channels_data).
Proof.
  unfold main_document. cbv zeta.
  pose proof (collect_channels_ids channels_data) as Hids.
  destruct (collect_channels fetch_epg_data channels_data) as [|ci rest] eqn:E;
    cbn [is_empty negb].
  - split.
    + split; [intros _; now rewrite <- Hids | reflexivity].
    + intros doc H. discriminate H.
  - split.
    + split; [discriminate|]. intros H. rewrite H in Hids. discriminate Hids.
    + intros doc H. injection H as <-.
      rewrite (proj1 (@fuel_children_by_tag _)), map_map, <- Hids.
      reflexivity.
Qed.

(** X7: every entry collected by the loop of [main] stems from an entry of
    the file with the same, non-empty, [channel_id]; its language is the one
    of the file, or ["en"] when the file gives none.  When the fetch for that
    identifier fails, its display name is ["Channel <id>"] and it has no
    program; when the fetch succeeds, its display name is the one returned
    by [parse_channel_data], or ["Channel <id>"] when that is empty, and its
    programs are those returned by [parse_programs] on the same document.
    In every case the display name is not empty. *)
Theorem collected_channels_are_named (channels_data : list channel_entry) (ci : channel_info) :
  In ci (collect_channels fetch_epg_data channels_data) ->
  channel_id ci <> "" /\ display_name ci <> "" /\
  exists entry,
    In entry channels_data /\
    entry_get entry "channel_id" = Some (channel_id ci) /\
    language ci = match entry_get entry "language" with Some l => l | None => "en" end /\
    match fetch_epg_data (channel_id ci) with
    | None =>
        display_name ci = ("Channel " ++ channel_id ci)%string /\ programs ci = []
    | Some xml_root =>
        display_name ci
        = (if Py.str_truthy (parse_channel_data xml_root)
           then parse_channel_data xml_root
           else "Channel " ++ channel_id ci)%string /\
        programs ci = parse_programs xml_root (language ci)
    end.
Proof.
  rewrite collect_channels_flat. intros H. apply in_flat_map in H.
  destruct H as [entry [He H]]. unfold process_entry in H.
  destruct (entry_get entry "channel_id") as [id|] eqn:Eid; [|contradiction].
  destruct (Py.str_truthy id) eqn:Et; cbn [negb] in H; [|contradiction].
  apply str_truthy_true in Et.
  destruct (fetch_epg_data id) as [xml_root|] eqn:Ef.
  - destruct H as [<-|[]]. cbn [channel_id display_name language programs].
    split; [exact Et|]. split.
    + destruct (Py.str_truthy (parse_channel_data xml_root)) eqn:En; cbn [negb].
      * now apply str_truthy_true.
      * discriminate.
    + exists entry. rewrite Ef. repeat split; auto.
      destruct (Py.str_truthy (parse_channel_data xml_root)); reflexivity.
  - destruct H as [<-|[]]. cbn [channel_id display_name language programs].
    split; [exact Et|]. split; [discriminate|]. exists entry. rewrite Ef.
    repeat split; auto.
Qed.

(** X8: when every fetch fails the document still lists every channel of
    the file: its children are exactly one [channel] element per non-empty
    identifier, named ["Channel <id>"], and no [programme] element. *)
Theorem failed_fetches_leave_placeholders (channels_data : list channel_entry) (doc : Element) :
  (forall id, In id (listed_ids channels_data) -> fetch_epg_data id = None) ->
  main_document fetch_epg_data channels_data = Some doc ->
  children doc
  = map (fun id => channel_elem id ("Channel " ++ id)) (listed_ids channels_data).
Proof.
  intros Hfail Hdoc. unfold main_document in Hdoc. cbv zeta in Hdoc.
  destruct (negb (is_empty (collect_channels fetch_epg_data channels_data)));
    [|discriminate Hdoc].
  injection Hdoc as <-. rewrite children_create_xmltv_output, collect_channels_flat.
  unfold listed_ids in *.
  induction channels_data as [|e l IH]; [reflexivity|].
  cbn [flat_map] in *. rewrite flat_map_app, map_app.
  rewrite IH by (intros id Hid; apply Hfail, in_or_app; now right).
  f_equal.
  unfold process_entry, entry_id in *.
  destruct (entry_get e "channel_id") as [id|]; [|reflexivity].
  destruct (Py.str_truthy id); cbn [negb]; [|reflexivity].
  rewrite (Hfail id) by (apply in_or_app; left; now left).
  cbn [flat_map channel_block programs filter map app channel_id display_name].
  reflexivity.
Qed.

End FuelMainExtras.

Lemma collected_channels_are_named_witness :
  (exists entry,
      In entry MainDoc.three_entries /\
      Fuel.entry_get entry "channel_id" = Some "one" /\
      "fr" = match Fuel.entry_get entry "language" with Some l => l | None => "en" end /\
      "First"
      = (if Py.str_truthy (Fuel.parse_channel_data MainDoc.headed_listing)
         then Fuel.parse_channel_data MainDoc.headed_listing
         else "Channel one") /\
      [Fuel.mkProgram "20240101060000 +0100" "20240101070000 +0100" "Morning News" ""]
      = Fuel.parse_programs MainDoc.headed_listing "fr")
  /\
  Fuel.display_name (Fuel.mkChannelInfo "two" "Channel two" "en" []) <> "".
Proof.
  split.
  - destruct (@collected_channels_are_named MainDoc.fetch_one MainDoc.three_entries
                (Fuel.mkChannelInfo "one" "First" "fr"
                   (Fuel.parse_programs MainDoc.headed_listing "fr")))
      as [_ [_ H]].
    + vm_compute. left. reflexivity.
    + exact H.
  - destruct (@collected_channels_are_named MainDoc.fetch_one MainDoc.three_entries
                (Fuel.mkChannelInfo "two" "Channel two" "en" [])) as [_ [H2 _]].
    + vm_compute. right. left. reflexivity.
    + exact H2.
Defined.

Lemma failed_fetches_leave_placeholders_witness :
  children (Fuel.create_xmltv_output
              [ Fuel.mkChannelInfo "one" "Channel one" "fr" [];
                Fuel.mkChannelInfo "two" "Channel two" "en" [] ])
  = map (fun id => Fuel.channel_elem id ("Channel " ++ id))
        (MainDoc.listed_ids MainDoc.three_entries).
Proof.
  apply (@failed_fetches_leave_placeholders (fun _ => None) MainDoc.three_entries).
  - intros id _. reflexivity.
  - reflexivity.
Defined.

(* ================================================================== *)
(** ** Further properties of [scripts/gracenote.py] *)
(* ================================================================== *)

Section GracenoteExtras.
Import Gracenote GridDoc GridPlan.
Variable repr_container : Py.value -> string.
Variable utc_offset : Z -> Z.
Variable fetch_program_data : dict -> string -> Py.value.

Lemma add_programs_entries (channel : dict) (l : list Py.value) (acc : list program_entry) :
  fold_left (add_program utc_offset channel) l acc = acc ++ entries_of utc_offset channel l.
Proof.
  revert acc. induction l as [|p l IH]; intros acc; cbn [fold_left entries_of flat_map].
  - now rewrite app_nil_r.
  - rewrite IH. unfold add_program. fold (entries_of utc_offset channel l).
    destruct (program_entry_of utc_offset channel p); [now rewrite <- app_assoc|].
    reflexivity.
Qed.

Lemma process_date_readable (channel : dict) (acc : list program_entry) (d : string) :
  readable (fetch_program_data channel d) d ->
  process_date utc_offset fetch_program_data channel acc d
  = Ok (acc ++ entries_of utc_offset channel (listed (fetch_program_data channel d) d)).
Proof.
  intros [H|[m [l [H Hl]]]]; unfold process_date, listed; rewrite H; cbv zeta.
  - cbn. now rewrite app_nil_r.
  - rewrite Hl. destruct m as [|kv m'].
    + cbn in Hl. injection Hl as <-. cbn. now rewrite app_nil_r.
    + cbn [Py.truthy negb iterate]. now rewrite add_programs_entries.
Qed.

Lemma process_dates_readable (channel : dict) (dates : list string) (acc : list program_entry) :
  (forall d, In d dates -> readable (fetch_program_data channel d) d) ->
  fold_left
    (fun acc date_str =>
       bind acc (fun ps => process_date utc_offset fetch_program_data channel ps date_str))
    dates (Ok acc)
  = Ok (acc ++ flat_map (fun d => entries_of utc_offset channel
                                    (listed (fetch_program_data channel d) d)) dates).
Proof.
  revert acc. induction dates as [|d ds IH]; intros acc H; cbn [fold_left flat_map bind].
  - now rewrite app_nil_r.
  - rewrite process_date_readable by (apply H; now left).
    rewrite IH by (intros d' Hd'; apply H; now right).
    now rewrite <- app_assoc.
Qed.

(** X9: errors are recovered program by program.  When every response of
    the window is [None] or an object holding a list (or nothing) under the
    requested date, [process_channel] returns, date after date and in list
    order, the entries of exactly the programs that convert; a malformed
    program is left out without affecting its neighbours. *)
Theorem process_channel_keeps_what_converts (channel : dict) (dates : list string) :
  (forall d, In d dates -> readable (fetch_program_data channel d) d) ->
  process_channel utc_offset fetch_program_data channel dates
  = Ok (flat_map (fun d => entries_of utc_offset channel
                             (listed (fetch_program_data channel d) d)) dates).
Proof.
  intros H. unfold process_channel.
  now rewrite (@process_dates_readable channel dates [] H).
Qed.

Lemma raised_is_absorbing (channel : dict) (dates : list string) :
  fold_left
    (fun acc date_str =>
       bind acc (fun ps => process_date utc_offset fetch_program_data channel ps date_str))
    dates Raised
  = Raised.
Proof. induction dates as [|d ds IH]; [reflexivity | exact IH]. Qed.

Lemma process_dates_abort (channel : dict) (dates : list string) (d : string)
      (acc : result (list program_entry)) :
  In d dates ->
  Py.truthy (fetch_program_data channel d) = true ->
  is_dict (fetch_program_data channel d) = false ->
  fold_left
    (fun acc date_str =>
       bind acc (fun ps => process_date utc_offset fetch_program_data channel ps date_str))
    dates acc
  = Raised.
Proof.
  intros Hin Ht Hd. revert acc.
  induction dates as [|d' ds IH]; intros acc; [contradiction|].
  cbn [fold_left]. destruct Hin as [->|Hin]; [|now apply IH].
  destruct acc as [ps|]; cbn [bind]; [|apply raised_is_absorbing].
  unfold process_date. rewrite Ht. cbn [negb].
  destruct (fetch_program_data channel d); try discriminate Hd;
    apply raised_is_absorbing.
Qed.

(** X10: a response that is truthy but not an object (a JSON array, string
    or number) is not recovered: whatever the other dates and channels
    return, [process_channel] lets the exception escape, and so does the run
    over any list of channels that holds this channel. *)
Theorem non_object_response_aborts_the_run
        (channels_data : list dict) (channel : dict) (dates : list string) (d : string) :
  In channel channels_data -> In d dates ->
  Py.truthy (fetch_program_data channel d) = true ->
  is_dict (fetch_program_data channel d) = false ->
  process_channel utc_offset fetch_program_data channel dates = Raised /\
  main_tree repr_container utc_offset fetch_program_data channels_data dates = Raised.
Proof.
  intros Hc Hd Ht Hn.
  assert (P : process_channel utc_offset fetch_program_data channel dates = Raised).
  { unfold process_channel. now apply process_dates_abort with (d := d). }
  split; [exact P|].
  unfold main_tree.
  assert (G : forall acc,
             fold_left
               (fun acc channel =>
                  bind acc (fun all_programs =>
                  bind (process_channel utc_offset fetch_program_data channel dates)
                       (fun channel_programs => Ok (all_programs ++ channel_programs))))
               channels_data acc = Raised).
  { clear Ht Hn Hd. induction channels_data as [|c cs IH]; intros acc; [contradiction|].
    cbn [fold_left].
    assert (R : forall l,
               fold_left
                 (fun acc channel =>
                    bind acc (fun all_programs =>
                    bind (process_channel utc_offset fetch_program_data channel dates)
                         (fun channel_programs => Ok (all_programs ++ channel_programs))))
                 l Raised = Raised).
    { induction l as [|x l IHl]; [reflexivity | exact IHl]. }
    destruct Hc as [->|Hc]; [|now apply IH].
    destruct acc as [ps|]; cbn [bind]; [rewrite P; cbn [bind]|]; apply R. }
  now rewrite G.
Qed.

End GracenoteExtras.

Lemma process_channel_keeps_what_converts_witness :
  Gracenote.process_channel (fun _ => 0%Z) (fun _ _ => GridPlan.mixed_day)
                            GridDoc.test_channel GridDoc.three_days
  = Ok (flat_map
          (fun d => GridPlan.entries_of (fun _ => 0%Z) GridDoc.test_channel
                      (GridPlan.listed GridPlan.mixed_day d))
          GridDoc.three_days)
  /\
  map Gracenote.title
      (flat_map
         (fun d => GridPlan.entries_of (fun _ => 0%Z) GridDoc.test_channel
                     (GridPlan.listed GridPlan.mixed_day d))
         GridDoc.three_days)
  = [Py.VStr "News"; Py.VStr "Unknown"].
Proof.
  split; [|reflexivity].
  apply (@process_channel_keeps_what_converts (fun _ => 0%Z)
           (fun _ _ => GridPlan.mixed_day) GridDoc.test_channel GridDoc.three_days).
  intros d [<-|[<-|[<-|[]]]]; right; eexists; eexists; split; reflexivity.
Defined.

Lemma non_object_response_aborts_the_run_witness :
  Gracenote.process_channel (fun _ => 0%Z) (fun _ _ => Py.VList [Py.VInt 1])
                            GridDoc.test_channel GridDoc.three_days = Raised /\
  Gracenote.main_tree GridDoc.no_repr (fun _ => 0%Z) (fun _ _ => Py.VList [Py.VInt 1])
                      [GridDoc.orphan_channel; GridDoc.test_channel] GridDoc.three_days
  = Raised.
Proof.
  apply (@non_object_response_aborts_the_run GridDoc.no_repr (fun _ => 0%Z)
           (fun _ _ => Py.VList [Py.VInt 1])
           [GridDoc.orphan_channel; GridDoc.test_channel] GridDoc.test_channel
           GridDoc.three_days "2024-01-02").
  - right. left. reflexivity.
  - right. left. reflexivity.
  - reflexivity.
  - reflexivity.
Defined.

Section GracenoteIntegrity.
Import Gracenote GridDoc GridPlan.
Variable repr_container : Py.value -> string.
Variable utc_offset : Z -> Z.
Variable fetch_program_data : dict -> string -> Py.value.

Lemma program_entry_of_channel (channel : dict) (program : Py.value) (entry : program_entry) :
  program_entry_of utc_offset channel program = Some entry ->
  channel_id entry = resolved_id channel /\ language entry = Py.get channel "language".
Proof.
  unfold program_entry_of. intros H.
  destruct program as [| | | | |p]; try discriminate H.
  destruct (Datetime.fromtimestamp utc_offset (Py.get p "startTime")); [|discriminate H].
  destruct (Datetime.fromtimestamp utc_offset (Py.get p "endTime")); [|discriminate H].
  destruct (Py.get_default p "program" (Py.VDict [])); try discriminate H.
  injection H as <-. split; reflexivity.
Qed.

Lemma add_programs_owned (channel : dict) (l : list Py.value) (acc : list program_entry) :
  Forall (fun e => channel_id e = resolved_id channel) acc ->
  Forall (fun e => channel_id e = resolved_id channel)
         (fold_left (add_program utc_offset channel) l acc).
Proof.
  revert acc. induction l as [|p l IH]; intros acc H; [exact H|].
  cbn [fold_left]. apply IH. unfold add_program.
  destruct (program_entry_of utc_offset channel p) as [e|] eqn:E; [|exact H].
  apply Forall_app. split; [exact H|]. constructor; [|constructor].
  exact (proj1 (program_entry_of_channel _ _ E)).
Qed.

Lemma process_date_owned (channel : dict) (acc ps : list program_entry) (d : string) :
  Forall (fun e => channel_id e = resolved_id channel) acc ->
  process_date utc_offset fetch_program_data channel acc d = Ok ps ->
  Forall (fun e => channel_id e = resolved_id channel) ps.
Proof.
  intros H. unfold process_date.
  destruct (negb (Py.truthy (fetch_program_data channel d))).
  - intros E. injection E as <-. exact H.
  - destruct (fetch_program_data channel d) as [| | | | |m]; try discriminate.
    destruct (iterate (Py.get_default m d (Py.VList []))) as [l|]; [|discriminate].
    intros E. injection E as <-. now apply add_programs_owned.
Qed.

Lemma process_channel_owned (channel : dict) (dates : list string) (ps : list program_entry) :
  process_channel utc_offset fetch_program_data channel dates = Ok ps ->
  Forall (fun e => channel_id e = resolved_id channel) ps.
Proof.
  unfold process_channel.
  assert (G : forall acc,
             Forall (fun e => channel_id e = resolved_id channel) acc ->
             fold_left
               (fun acc date_str =>
                  bind acc (fun ps =>
                  process_date utc_offset fetch_program_data channel ps date_str))
               dates (Ok acc) = Ok ps ->
             Forall (fun e => channel_id e = resolved_id channel) ps).
  { induction dates as [|d ds IH]; intros acc Hacc E.
    - cbn in E. injection E as <-. exact Hacc.
    - cbn [fold_left bind] in E.
      destruct (process_date utc_offset fetch_program_data channel acc d) as [ps'|] eqn:Ed.
      + apply (IH ps'); [|exact E]. exact (process_date_owned _ _ Hacc Ed).
      + rewrite raised_is_absorbing in E. discriminate E. }
  apply G. constructor.
Qed.

Lemma collected_programs_owned (channels_data cs : list dict) (dates : list string)
      (acc all_programs : list program_entry) :
  (forall c, In c cs -> In c channels_data) ->
  (forall e, In e acc -> exists c, In c channels_data /\ channel_id e = resolved_id c) ->
  fold_left
    (fun acc channel =>
       bind acc (fun all_programs =>
       bind (process_channel utc_offset fetch_program_data channel dates)
            (fun channel_programs => Ok (all_programs ++ channel_programs))))
    cs (Ok acc) = Ok all_programs ->
  forall e, In e all_programs -> exists c, In c channels_data /\ channel_id e = resolved_id c.
Proof.
  revert acc. induction cs as [|c cs IH]; intros acc Hsub Hacc E.
  - cbn in E. injection E as <-. exact Hacc.
  - cbn [fold_left bind] in E.
    destruct (process_channel utc_offset fetch_program_data c dates) as [ps|] eqn:Ec;
      cbn [bind] in E.
    + apply (IH (acc ++ ps)); [intros x Hx; apply Hsub; now right | | exact E].
      intros e He. apply in_app_or in He. destruct He as [He|He]; [now apply Hacc|].
      exists c. split; [apply Hsub; now left|].
      pose proof (process_channel_owned _ _ Ec) as F.
      rewrite Forall_forall in F. now apply F.
    + exfalso. clear - E. induction cs as [|x l IHl]; [discriminate E | exact (IHl E)].
Qed.

Lemma gracenote_attrib_programme (program : program_entry) :
  attrib (programme_elem repr_container program)
  = [ ("start", Py.VStr (start program ++ " +0000"));
      ("stop", Py.VStr (end_ program ++ " +0000"));
      ("channel", Py.VStr (Py.str repr_container (channel_id program))) ].
Proof.
  unfold programme_elem.
  destruct (Py.truthy (episode_title program)), (Py.truthy (description program)),
    (negb (is_none (season program)) && negb (is_none (episode program))),
    (Py.truthy (rating program)); reflexivity.
Qed.

(** X11: in a document produced by a run of [gracenote.py] no programme is
    left without its channel: the [channel] attribute of every [programme]
    child is the [id] attribute of a [channel] child of the same document. *)
Theorem gracenote_programmes_refer_to_listed_channels
        (channels_data : list dict) (dates : list string) (tv p : PyElement) :
  main_tree repr_container utc_offset fetch_program_data channels_data dates = Ok tv ->
  In p (children tv) -> tag p = "programme" ->
  exists c,
    In c (children tv) /\ tag c = "channel" /\
    ET.get c "id" Py.VNone = ET.get p "channel" Py.VNone.
Proof.
  unfold main_tree. intros Htv Hp Htag.
  destruct (fold_left
              (fun acc channel =>
                 bind acc (fun all_programs =>
                 bind (process_channel utc_offset fetch_program_data channel dates)
                      (fun channel_programs => Ok (all_programs ++ channel_programs))))
              channels_data (Ok [])) as [all_programs|] eqn:E; [|discriminate Htv].
  cbn [bind] in Htv. injection Htv as <-.
  rewrite GracenoteFacts.gracenote_children in *.
  apply in_app_or in Hp. destruct Hp as [Hp|Hp].
  - apply in_map_iff in Hp. destruct Hp as [c [<- _]]. discriminate Htag.
  - apply in_map_iff in Hp. destruct Hp as [e [<- He]].
    destruct (@collected_programs_owned channels_data channels_data dates []
                all_programs (fun c H => H) (fun e' (H : In e' []) => match H with end)
                E e He) as [c [Hc Hid]].
    exists (channel_elem repr_container c).
    split; [apply in_or_app; left; now apply in_map|].
    split; [reflexivity|].
    unfold ET.get at 2. rewrite gracenote_attrib_programme.
    cbn [attrib_lookup String.eqb Ascii.eqb Bool.eqb]. rewrite Hid. reflexivity.
Qed.

End GracenoteIntegrity.

Lemma gracenote_programmes_refer_to_listed_channels_witness :
  exists c,
    In c (children (Gracenote.create_xmltv GridDoc.no_repr [GridDoc.test_channel]
                      [GridDoc.news_entry "20240101092000" "20240101102000"])) /\
    tag c = "channel" /\
    ET.get c "id" Py.VNone
    = ET.get (GridDoc.news_programme "20240101092000" "20240101102000") "channel" Py.VNone.
Proof.
  apply (@gracenote_programmes_refer_to_listed_channels GridDoc.no_repr (fun _ => 0%Z)
           (fun _ _ => GridDoc.news_grid) [GridDoc.test_channel] GridDoc.three_days).
  - reflexivity.
  - right. left. reflexivity.
  - reflexivity.
Defined.

(* ================================================================== *)
(** ** Further properties of [scripts/gracenote_to_xmltv.py] *)
(* ================================================================== *)

Section ConverterExtras.
Import GracenoteToXmltv GridDoc GridPlan.
Variable repr_container : Py.value -> string.
Variable utc_offset : Z -> Z.
Variable today : Z.
Variable reported_as_value_error : Z -> bool.
Variable fetch_programs : dict -> Py.value.

#[local] Abbreviation parse_program' := (parse_program utc_offset reported_as_value_error).
#[local] Abbreviation parse_day' := (parse_day utc_offset reported_as_value_error).
#[local] Abbreviation parse_programs' := (parse_programs utc_offset today reported_as_value_error).

Lemma parse_program_owned (channel : dict) (v : Py.value) (prog : program) :
  parse_program' channel v = Appended prog ->
  channel_id prog = resolved_id channel /\ lang prog = Py.get channel "lang".
Proof.
  unfold parse_program. intros H.
  destruct v as [| | | | |p]; try discriminate H.
  destruct (convert utc_offset (Py.get_default p "startTime" (Py.VInt 0)));
    [|discriminate H|destruct (reported_as_value_error t); discriminate H].
  destruct (convert utc_offset (Py.get_default p "endTime" (Py.VInt 0)));
    [|discriminate H|destruct (reported_as_value_error t); discriminate H].
  destruct (Py.get_default p "program" (Py.VDict [])); try discriminate H.
  injection H as <-. split; reflexivity.
Qed.

Lemma parse_day_owned (channel : dict) (l : list Py.value) (acc ps : list program) :
  Forall (fun p => channel_id p = resolved_id channel) acc ->
  parse_day' channel l acc = Ok ps ->
  Forall (fun p => channel_id p = resolved_id channel) ps.
Proof.
  revert acc. induction l as [|v l IH]; intros acc Hacc E.
  - cbn in E. injection E as <-. exact Hacc.
  - cbn [parse_day] in E.
    destruct (parse_program' channel v) as [prog| |] eqn:Ev; [| |discriminate E].
    + apply (IH (acc ++ [prog])); [|exact E].
      apply Forall_app. split; [exact Hacc|]. constructor; [|constructor].
      exact (proj1 (parse_program_owned _ _ Ev)).
    + exact (IH acc Hacc E).
Qed.

Lemma parse_offset_owned (program_data : Py.value) (channel : dict)
      (acc ps : list program) (day_offset : Z) :
  Forall (fun p => channel_id p = resolved_id channel) acc ->
  parse_offset utc_offset today reported_as_value_error program_data channel acc day_offset
  = Ok ps ->
  Forall (fun p => channel_id p = resolved_id channel) ps.
Proof.
  intros Hacc. unfold parse_offset.
  destruct (Datetime.date_key (today + day_offset)) as [k|]; [|discriminate].
  destruct (has_day program_data k) as [[|]|]; [| |discriminate].
  - destruct program_data as [| | | | |d]; try discriminate.
    destruct (Gracenote.iterate (Py.get d k)) as [l|]; [|discriminate].
    now apply parse_day_owned.
  - intros E. injection E as <-. exact Hacc.
Qed.

Lemma parse_programs_owned (program_data : Py.value) (channel : dict) (ps : list program) :
  parse_programs' program_data channel = Ok ps ->
  Forall (fun p => channel_id p = resolved_id channel) ps.
Proof.
  unfold parse_programs. cbn [fold_left bind]. intros E.
  destruct (parse_offset utc_offset today reported_as_value_error program_data channel [] 0)
    as [ps0|] eqn:E0; [|discriminate E]. cbn [bind] in E.
  destruct (parse_offset utc_offset today reported_as_value_error program_data channel ps0 1)
    as [ps1|] eqn:E1; [|discriminate E]. cbn [bind] in E.
  pose proof (parse_offset_owned _ _ _ (Forall_nil _) E0) as F0.
  pose proof (parse_offset_owned _ _ _ F0 E1) as F1.
  exact (parse_offset_owned _ _ _ F1 E).
Qed.

Lemma collect_programs_aligned (channels : list dict) (acc_channels : list dict)
      (acc all_programs : list (list program)) :
  Forall2 (fun c ps => Forall (fun p => channel_id p = resolved_id c) ps) acc_channels acc ->
  fold_left
    (fun acc channel =>
       bind acc (fun all_programs =>
       fetch_channel utc_offset today reported_as_value_error fetch_programs
                     all_programs channel))
    channels (Ok acc) = Ok all_programs ->
  Forall2 (fun c ps => Forall (fun p => channel_id p = resolved_id c) ps)
          (acc_channels ++ channels) all_programs.
Proof.
  revert acc acc_channels. induction channels as [|c cs IH]; intros acc acc_channels Hacc E.
  - cbn in E. injection E as <-. now rewrite app_nil_r.
  - cbn [fold_left bind] in E.
    destruct (fetch_channel utc_offset today reported_as_value_error fetch_programs acc c)
      as [acc'|] eqn:Ec.
    + replace (acc_channels ++ c :: cs) with ((acc_channels ++ [c]) ++ cs)
        by now rewrite <- app_assoc.
      apply (IH acc'); [|exact E].
      unfold fetch_channel in Ec.
      destruct (Py.truthy (fetch_programs c)).
      * destruct (parse_programs' (fetch_programs c) c) as [ps|] eqn:Ep;
          [|discriminate Ec].
        cbn [bind] in Ec. injection Ec as <-.
        apply Forall2_app; [exact Hacc|]. constructor; [|constructor].
        exact (parse_programs_owned _ _ Ep).
      * injection Ec as <-. apply Forall2_app; [exact Hacc|].
        constructor; [constructor|constructor].
    + exfalso. clear - E. induction cs as [|x l IHl]; [discriminate E | exact (IHl E)].
Qed.

Lemma collect_programs_lists (channels : list dict) (acc_channels : list dict)
      (acc all_programs : list (list program)) :
  Forall2 (fun c ps => if Py.truthy (fetch_programs c)
                       then parse_programs' (fetch_programs c) c = Ok ps
                       else ps = []) acc_channels acc ->
  fold_left
    (fun acc channel =>
       bind acc (fun all_programs =>
       fetch_channel utc_offset today reported_as_value_error fetch_programs
                     all_programs channel))
    channels (Ok acc) = Ok all_programs ->
  Forall2 (fun c ps => if Py.truthy (fetch_programs c)
                       then parse_programs' (fetch_programs c) c = Ok ps
                       else ps = [])
          (acc_channels ++ channels) all_programs.
Proof.
  revert acc acc_channels. induction channels as [|c cs IH]; intros acc acc_channels Hacc E.
  - cbn in E. injection E as <-. now rewrite app_nil_r.
  - cbn [fold_left bind] in E.
    destruct (fetch_channel utc_offset today reported_as_value_error fetch_programs acc c)
      as [acc'|] eqn:Ec.
    + replace (acc_channels ++ c :: cs) with ((acc_channels ++ [c]) ++ cs)
        by now rewrite <- app_assoc.
      apply (IH acc'); [|exact E].
      unfold fetch_channel in Ec.
      destruct (Py.truthy (fetch_programs c)) eqn:Et.
      * destruct (parse_programs' (fetch_programs c) c) as [ps|] eqn:Ep;
          [|discriminate Ec].
        cbn [bind] in Ec. injection Ec as <-.
        apply Forall2_app; [exact Hacc|]. constructor; [|constructor].
        now rewrite Et.
      * injection Ec as <-. apply Forall2_app; [exact Hacc|].
        constructor; [|constructor]. now rewrite Et.
    + exfalso. clear - E. induction cs as [|x l IHl]; [discriminate E | exact (IHl E)].
Qed.

(** X12: the loop of [main] keeps programs and channels aligned: when it
    ends without an exception, [all_programs] holds one list per channel, in
    channel order: the empty list where the fetch returned nothing, and
    otherwise the list returned by [parse_programs] for that channel; every
    program of a list carries the resolved identifier of its channel. *)
Theorem converter_programs_stay_with_their_channel
        (channels : list dict) (all_programs : list (list program)) :
  collect_programs utc_offset today reported_as_value_error fetch_programs channels
  = Ok all_programs ->
  List.length all_programs = List.length channels /\
  Forall2 (fun c ps => Forall (fun p => channel_id p = resolved_id c) ps)
          channels all_programs /\
  Forall2 (fun c ps => if Py.truthy (fetch_programs c)
                       then parse_programs' (fetch_programs c) c = Ok ps
                       else ps = [])
          channels all_programs.
Proof.
  intros E.
  pose proof (@collect_programs_aligned channels [] [] all_programs (Forall2_nil _) E) as F.
  pose proof (@collect_programs_lists channels [] [] all_programs (Forall2_nil _) E) as L.
  cbn [app] in F, L. split; [|split; [exact F | exact L]].
  symmetry. exact (Forall2_length F).
Qed.






End ConverterExtras.

Lemma converter_programs_stay_with_their_channel_witness :
  exists all_programs,
    GracenoteToXmltv.collect_programs (fun _ => 0%Z) GridPlan.new_year_2024 (fun _ => true)
      (fun _ => GridDoc.news_grid)
      (GracenoteToXmltv.parse_channels_file GridPlan.channels_file) = Ok all_programs /\
    List.length all_programs
    = List.length (GracenoteToXmltv.parse_channels_file GridPlan.channels_file).
Proof.
  eexists. split; [reflexivity|].
  eapply (fun E => proj1 (@converter_programs_stay_with_their_channel (fun _ => 0%Z)
                            GridPlan.new_year_2024 (fun _ => true)
                            (fun _ => GridDoc.news_grid)
                            (GracenoteToXmltv.parse_channels_file GridPlan.channels_file)
                            _ E)).
  reflexivity.
Defined.


Section ConverterItems.
Import GracenoteToXmltv GridDoc GridPlan.
Variable utc_offset : Z -> Z.
Variable reported_as_value_error : Z -> bool.

(** X14: the two scripts differ on an item that is not an object.  In
    [gracenote_to_xmltv.py] the [AttributeError] is not among the caught
    exceptions: a day list holding such an item makes the loop raise,
    whatever the other items.  In [gracenote.py] the item alone is
    skipped. *)
Theorem non_object_item_is_fatal_for_the_converter
        (channel : dict) (day_programs : list Py.value) (v : Py.value)
        (programs : list program) (all_programs : list Gracenote.program_entry) :
  In v day_programs -> is_dict v = false ->
  parse_day utc_offset reported_as_value_error channel day_programs programs = Raised /\
  Gracenote.add_program utc_offset channel all_programs v = all_programs.
Proof.
  intros Hin Hv. split.
  - revert programs. induction day_programs as [|x l IH]; intros programs; [contradiction|].
    cbn [parse_day]. destruct Hin as [->|Hin].
    + destruct v; try discriminate Hv; reflexivity.
    + destruct (parse_program utc_offset reported_as_value_error channel x);
        [apply IH | apply IH | reflexivity]; exact Hin.
  - unfold Gracenote.add_program. destruct v; try discriminate Hv; reflexivity.
Qed.

Lemma fromtimestamp_epoch :
  (-86400 < utc_offset 0 < 86400)%Z ->
  exists dt, Datetime.fromtimestamp utc_offset (Py.VInt 0) = Some dt.
Proof.
  intros H. unfold Datetime.fromtimestamp.
  set (l := (0 + utc_offset 0)%Z) in *.
  assert (D : (l / 86400 = -1 \/ l / 86400 = 0)%Z).
  { pose proof (Z.div_mod l 86400 ltac:(lia)) as E.
    pose proof (Z.mod_pos_bound l 86400 ltac:(lia)) as B. lia. }
  destruct D as [D|D]; rewrite D.
  - change (Datetime.civil_from_days (-1)) with (1969%Z, 12%Z, 31%Z). eexists. reflexivity.
  - change (Datetime.civil_from_days 0) with (1970%Z, 1%Z, 1%Z). eexists. reflexivity.
Qed.

(** X15: the two scripts differ on a program without times.  [gracenote.py]
    passes the missing [startTime] to [fromtimestamp] and drops the program;
    [gracenote_to_xmltv.py] defaults both instants to 0 and records a
    programme of zero length whose start and stop are the local rendering of
    Unix time zero. *)
Theorem untimed_program_is_dropped_or_dated_at_epoch
        (channel : dict) (p : list (string * Py.value)) :
  Py.lookup p "startTime" = None -> Py.lookup p "endTime" = None ->
  is_dict (Py.get_default p "program" (Py.VDict [])) = true ->
  (-86400 < utc_offset 0 < 86400)%Z ->
  Gracenote.program_entry_of utc_offset channel (Py.VDict p) = None /\
  exists prog dt,
    parse_program utc_offset reported_as_value_error channel (Py.VDict p) = Appended prog /\
    Datetime.fromtimestamp utc_offset (Py.VInt 0) = Some dt /\
    start prog = Datetime.strftime dt /\ stop prog = Datetime.strftime dt.
Proof.
  intros Hs He Hd Hoff. split.
  - unfold Gracenote.program_entry_of, Py.get, Py.get_default. rewrite Hs. reflexivity.
  - destruct (fromtimestamp_epoch Hoff) as [dt Hdt].
    assert (Gs : Py.get_default p "startTime" (Py.VInt 0) = Py.VInt 0)
      by (unfold Py.get_default; now rewrite Hs).
    assert (Ge : Py.get_default p "endTime" (Py.VInt 0) = Py.VInt 0)
      by (unfold Py.get_default; now rewrite He).
    unfold parse_program. rewrite Gs, Ge. unfold convert. rewrite Hdt.
    destruct (Py.get_default p "program" (Py.VDict [])); try discriminate Hd.
    eexists. exists dt. repeat split.
Qed.

End ConverterItems.

Lemma non_object_item_is_fatal_for_the_converter_witness :
  GracenoteToXmltv.parse_day (fun _ => 0%Z) (fun _ => true) GridDoc.test_channel
    [GridDoc.news_program; Py.VStr "not a program"] [] = Raised /\
  Gracenote.add_program (fun _ => 0%Z) GridDoc.test_channel [] (Py.VStr "not a program") = [].
Proof.
  apply (@non_object_item_is_fatal_for_the_converter (fun _ => 0%Z) (fun _ => true)
           GridDoc.test_channel [GridDoc.news_program; Py.VStr "not a program"]
           (Py.VStr "not a program") [] []).
  - right. left. reflexivity.
  - reflexivity.
Defined.

Lemma untimed_program_is_dropped_or_dated_at_epoch_witness :
  Gracenote.program_entry_of (fun _ => 3600%Z) GridDoc.test_channel
    (Py.VDict GridPlan.untimed_grid_program) = None /\
  exists prog dt,
    GracenoteToXmltv.parse_program (fun _ => 3600%Z) (fun _ => true) GridDoc.test_channel
      (Py.VDict GridPlan.untimed_grid_program) = GracenoteToXmltv.Appended prog /\
    Datetime.fromtimestamp (fun _ => 3600%Z) (Py.VInt 0) = Some dt /\
    GracenoteToXmltv.start prog = Datetime.strftime dt /\
    GracenoteToXmltv.stop prog = Datetime.strftime dt.
Proof.
  apply (@untimed_program_is_dropped_or_dated_at_epoch (fun _ => 3600%Z) (fun _ => true)
           GridDoc.test_channel GridPlan.untimed_grid_program).
  - reflexivity.
  - reflexivity.
  - reflexivity.
  - lia.
Defined.

Section ChannelsFile.
Import GracenoteToXmltv GridDoc GridPlan.

Lemma split_no_slash (a : string) : no_slash a = true -> Py.split "/" a = [a].
Proof.
  induction a as [|c a IH]; [reflexivity|].
  cbn [no_slash Py.split]. intros H. apply andb_true_iff in H. destruct H as [Hc Ha].
  apply negb_true_iff in Hc. rewrite Hc, (IH Ha). reflexivity.
Qed.

Lemma split_join (a rest : string) :
  no_slash a = true ->
  Py.split "/" (a ++ String "/" rest) = a :: Py.split "/" rest.
Proof.
  induction a as [|c a IH]; intros H.
  - reflexivity.
  - cbn [no_slash] in H. apply andb_true_iff in H. destruct H as [Hc Ha].
    apply negb_true_iff in Hc. cbn [String.append Py.split]. rewrite Hc, (IH Ha).
    reflexivity.
Qed.

Lemma truthy_join (a rest : string) : Py.str_truthy (a ++ String "/" rest) = true.
Proof. destruct a; reflexivity. Qed.

(** X16: a site id of six [/]-separated fields is taken apart into the six
    provider parameters, in the order device, lineup, headend, country,
    postal code, service id, and the original attributes are kept; a site id
    without any [/] provides none of them. *)
Theorem site_id_fields (e : XmlElement) (site_id : string) :
  attrib_lookup (attrib e) "site_id" = Some site_id ->
  (forall p0 p1 p2 p3 p4 p5,
      site_id = site_id_of p0 p1 p2 p3 p4 p5 ->
      no_slash p0 = true -> no_slash p1 = true -> no_slash p2 = true ->
      no_slash p3 = true -> no_slash p4 = true -> no_slash p5 = true ->
      Py.get (parse_channel e) "device" = Py.VStr p0 /\
      Py.get (parse_channel e) "lineup_id" = Py.VStr p1 /\
      Py.get (parse_channel e) "headend_id" = Py.VStr p2 /\
      Py.get (parse_channel e) "country" = Py.VStr p3 /\
      Py.get (parse_channel e) "postal" = Py.VStr p4 /\
      Py.get (parse_channel e) "prgsvcid" = Py.VStr p5 /\
      Py.get (parse_channel e) "site_id" = Py.VStr site_id)
  /\
  (no_slash site_id = true ->
   Py.lookup (parse_channel e) "device" = None /\
   Py.lookup (parse_channel e) "prgsvcid" = None /\
   Py.get (parse_channel e) "site_id" = Py.VStr site_id /\
   Py.lookup (parse_channel e) "lineup_id" = None /\
   Py.lookup (parse_channel e) "headend_id" = None /\
   Py.lookup (parse_channel e) "country" = None /\
   Py.lookup (parse_channel e) "postal" = None).
Proof.
  intros Hsite. split.
  - intros p0 p1 p2 p3 p4 p5 -> H0 H1 H2 H3 H4 H5.
    unfold parse_channel, attr_value. rewrite Hsite. unfold site_id_of.
    repeat change (String.append "/" ?x) with (String "/" x).
    rewrite truthy_join.
    rewrite (@split_join p0 _ H0), (@split_join p1 _ H1), (@split_join p2 _ H2),
      (@split_join p3 _ H3), (@split_join p4 _ H4), (@split_no_slash p5 H5).
    repeat split.
  - intros H. unfold parse_channel, attr_value. rewrite Hsite.
    destruct (Py.str_truthy site_id); [rewrite (@split_no_slash site_id H)|]; repeat split.
Qed.

Lemma parse_channel_resolved (e : XmlElement) :
  resolved_id (parse_channel e) = file_channel_id e /\
  Py.get_default (parse_channel e) "name" (Py.VStr "") = Py.VStr (file_channel_name e).
Proof.
  unfold parse_channel, resolved_id, file_channel_id, file_channel_name, attr_value.
  destruct (attrib_lookup (attrib e) "site_id") as [s|]; [|split; reflexivity].
  destruct (Py.str_truthy s); [|split; reflexivity].
  destruct (Py.split "/" s) as [|p0 [|p1 [|p2 [|p3 [|p4 [|p5 r]]]]]]; split; reflexivity.
Qed.

(** X17: from the channels file to the document: the [channel] children of
    the document are, in file order, one element per [channel] element of
    the file whose [xmltv_id] or else [site_id] attribute is non-empty; its
    [id] is that attribute and its display name is the trimmed text of the
    file element. *)
Theorem channels_file_to_document (repr_container : Py.value -> string)
        (root : XmlElement) (all_programs : list (list program)) :
  children_tagged (create_xmltv repr_container (parse_channels_file root) all_programs)
                  "channel"
  = map (fun e => mkElement "channel" [("id", file_channel_id e)] Py.VNone
                    [mkElement "display-name" [] (Py.VStr (file_channel_name e)) []])
        (filter (fun e => Py.truthy (file_channel_id e))
                (findall_descendant root "channel")).
Proof.
  rewrite GracenoteToXmltvFacts.channels_without_id_are_skipped.
  unfold parse_channels_file.
  induction (findall_descendant root "channel") as [|e l IH]; [reflexivity|].
  cbn [map filter]. destruct (parse_channel_resolved e) as [Hid Hname].
  rewrite Hid. destruct (Py.truthy (file_channel_id e)); [|exact IH].
  cbn [map]. rewrite IH. f_equal.
  unfold kept_channel_elem. now rewrite Hid, Hname.
Qed.

End ChannelsFile.

Lemma site_id_fields_witness :
  Py.get (GracenoteToXmltv.parse_channel GridPlan.full_channel) "prgsvcid" = Py.VStr "5" /\
  Py.lookup (GracenoteToXmltv.parse_channel GridPlan.short_channel) "prgsvcid" = None.
Proof.
  split.
  - apply (proj1 (@site_id_fields GridPlan.full_channel "X/USA-lineup/HE1/USA/10001/5"
                    eq_refl)
             "X" "USA-lineup" "HE1" "USA" "10001" "5"); reflexivity.
  - apply (proj1 (proj2 (proj2 (@site_id_fields GridPlan.short_channel "5" eq_refl)
                           eq_refl))).
Defined.

Section Window.
Import GracenoteToXmltv GridDoc GridPlan.
Variable utc_offset : Z -> Z.
Variable today : Z.
Variable reported_as_value_error : Z -> bool.

Lemma has_day_dict (d : list (string * Py.value)) (k : string) :
  has_day (Py.VDict d) k
  = Some (match Py.lookup d k with Some _ => true | None => false end).
Proof. destruct d as [|kv d]; reflexivity. Qed.

Lemma parse_offset_ext (d d' : list (string * Py.value)) (channel : dict)
      (acc : list program) (i : Z) :
  (forall k, Datetime.date_key (today + i) = Some k -> Py.lookup d k = Py.lookup d' k) ->
  parse_offset utc_offset today reported_as_value_error (Py.VDict d) channel acc i
  = parse_offset utc_offset today reported_as_value_error (Py.VDict d') channel acc i.
Proof.
  intros H. unfold parse_offset.
  destruct (Datetime.date_key (today + i)) as [k|]; [|reflexivity].
  specialize (H k eq_refl). rewrite !has_day_dict. unfold Py.get, Py.get_default.
  rewrite H. reflexivity.
Qed.

Lemma parse_offset_absent (d : list (string * Py.value)) (channel : dict)
      (acc : list program) (i : Z) (k : string) :
  Datetime.date_key (today + i) = Some k -> Py.lookup d k = None ->
  parse_offset utc_offset today reported_as_value_error (Py.VDict d) channel acc i = Ok acc.
Proof.
  intros Hk Hl. unfold parse_offset. rewrite Hk, has_day_dict, Hl. reflexivity.
Qed.

(** X18: [parse_programs] reads a response only under the three dates of its
    window: two objects that agree under the keys of today and the two
    following days give the same result, whatever else they hold, and an
    object holding none of these keys gives the empty list. *)
Theorem only_the_window_is_read (d d' : list (string * Py.value)) (channel : dict) :
  ((forall i k, In i [0%Z; 1%Z; 2%Z] -> Datetime.date_key (today + i) = Some k ->
                Py.lookup d k = Py.lookup d' k) ->
   parse_programs utc_offset today reported_as_value_error (Py.VDict d) channel
   = parse_programs utc_offset today reported_as_value_error (Py.VDict d') channel)
  /\
  ((forall i, In i [0%Z; 1%Z; 2%Z] ->
              exists k, Datetime.date_key (today + i) = Some k /\ Py.lookup d k = None) ->
   parse_programs utc_offset today reported_as_value_error (Py.VDict d) channel = Ok []).
Proof.
  split.
  - intros H. unfold parse_programs. cbn [fold_left bind].
    rewrite (@parse_offset_ext d d' channel [] 0)
      by (intros k; apply H; simpl; auto).
    destruct (parse_offset utc_offset today reported_as_value_error (Py.VDict d')
                channel [] 0) as [ps0|]; [|reflexivity].
    cbn [bind].
    rewrite (@parse_offset_ext d d' channel ps0 1)
      by (intros k; apply H; simpl; auto).
    destruct (parse_offset utc_offset today reported_as_value_error (Py.VDict d')
                channel ps0 1) as [ps1|]; [|reflexivity].
    cbn [bind]. apply parse_offset_ext. intros k; apply H; simpl; auto.
  - intros H. unfold parse_programs. cbn [fold_left bind].
    destruct (H 0%Z ltac:(simpl; auto)) as [k0 [K0 L0]].
    destruct (H 1%Z ltac:(simpl; auto)) as [k1 [K1 L1]].
    destruct (H 2%Z ltac:(simpl; auto)) as [k2 [K2 L2]].
    rewrite (@parse_offset_absent d channel [] 0 k0 K0 L0). cbn [bind].
    rewrite (@parse_offset_absent d channel [] 1 k1 K1 L1). cbn [bind].
    exact (@parse_offset_absent d channel [] 2 k2 K2 L2).
Qed.

End Window.

Lemma only_the_window_is_read_witness :
  GracenoteToXmltv.parse_programs (fun _ => 0%Z) GridPlan.new_year_2024 (fun _ => true)
    (Py.VDict [("2024-01-05", Py.VInt 7); ("2023-12-31", Py.VStr "x")]) GridDoc.test_channel
  = Ok [].
Proof.
  apply (proj2 (@only_the_window_is_read (fun _ => 0%Z) GridPlan.new_year_2024
                  (fun _ => true)
                  [("2024-01-05", Py.VInt 7); ("2023-12-31", Py.VStr "x")]
                  [] GridDoc.test_channel)).
  intros i [<-|[<-|[<-|[]]]]; eexists; split; reflexivity.
Defined.

(* ================================================================== *)
(** ** The width of the timestamps *)
(* ================================================================== *)

Section Width.
Import GridPlan.
Open Scope Z_scope.

Lemma all_from_spec (n : nat) (z : Z) (f : Z -> bool) :
  all_from n z f = true -> forall i, z <= i < z + Z.of_nat n -> f i = true.
Proof.
  revert z. induction n as [|n IH]; intros z H i Hi; [lia|].
  cbn [all_from] in H. apply andb_true_iff in H. destruct H as [Hz H].
  destruct (Z.eq_dec i z) as [->|Hne]; [exact Hz|].
  apply (IH (z + 1) H). lia.
Qed.

Lemma digits_app (n m : nat) (a b : string) :
  digits n a = true -> digits m b = true -> digits (n + m) (a ++ b) = true.
Proof.
  revert a. induction n as [|n IH]; intros a Ha Hb.
  - destruct a; [exact Hb | discriminate Ha].
  - destruct a as [|c a]; [discriminate Ha|].
    cbn [digits] in Ha. apply andb_true_iff in Ha. destruct Ha as [Hc Ha].
    cbn [Nat.add String.append digits]. rewrite Hc. exact (IH a Ha Hb).
Qed.

Lemma pad2_digits (n : Z) : 0 <= n < 100 -> digits 2 (Datetime.pad2 n) = true.
Proof.
  intros H.
  apply (@all_from_spec 100 0 (fun n => digits 2 (Datetime.pad2 n))); [|lia].
  vm_compute. reflexivity.
Qed.

Lemma year_digits (y : Z) : 1000 <= y <= 9999 -> digits 4 (Py.str_of_int y) = true.
Proof.
  intros H.
  apply (@all_from_spec (Z.to_nat 9000) 1000 (fun y => digits 4 (Py.str_of_int y))); [|lia].
  vm_compute. reflexivity.
Qed.

Lemma month_day_bounds (doe : Z) :
  0 <= doe < 146097 -> month_day_in_range doe = true.
Proof.
  intros H. apply (@all_from_spec (Z.to_nat 146097) 0 month_day_in_range); [|lia].
  vm_compute. reflexivity.
Qed.

Lemma civil_from_days_fields (days : Z) :
  let '(y, m, d) := Datetime.civil_from_days days in
  1 <= m <= 12 /\ 1 <= d <= 31.
Proof.
  unfold Datetime.civil_from_days. cbv zeta.
  set (z := days + 719468).
  set (doe := z - z / 146097 * 146097).
  assert (Hdoe : 0 <= doe < 146097).
  { subst doe. pose proof (Z.div_mod z 146097 ltac:(lia)).
    pose proof (Z.mod_pos_bound z 146097 ltac:(lia)). lia. }
  pose proof (month_day_bounds Hdoe) as B. unfold month_day_in_range in B.
  cbv zeta in B. rewrite !andb_true_iff, !Z.leb_le in B. lia.
Qed.

(** X19: the timestamps have the fixed width of the wire format: whenever
    [fromtimestamp] succeeds on a value and the local year has four digits,
    [strftime("%Y%m%d%H%M%S")] yields exactly fourteen decimal digits. *)
Theorem wire_timestamps_are_fourteen_digits
        (utc_offset : Z -> Z) (x : Py.value) (dt : Datetime.datetime) :
  Datetime.fromtimestamp utc_offset x = Some dt ->
  1000 <= Datetime.year dt ->
  digits 14 (Datetime.strftime dt) = true.
Proof.
  intros H Hy.
  assert (G : forall t,
             (let l := t + utc_offset t in
              let '(y, m, d) := Datetime.civil_from_days (l / 86400) in
              let s := l mod 86400 in
              if (1 <=? y) && (y <=? 9999) then
                Some (Datetime.mkDatetime y m d (s / 3600) (s mod 3600 / 60) (s mod 60))
              else None) = Some dt ->
             digits 14 (Datetime.strftime dt) = true).
  { clear H. intros t. cbv zeta.
    pose proof (civil_from_days_fields ((t + utc_offset t) / 86400)) as F.
    destruct (Datetime.civil_from_days ((t + utc_offset t) / 86400)) as [[y m] d].
    destruct ((1 <=? y) && (y <=? 9999)) eqn:E; [|discriminate].
    intros K. injection K as <-. cbn [Datetime.year] in Hy.
    apply andb_true_iff in E. destruct E as [_ E]. apply Z.leb_le in E.
    pose proof (Z.mod_pos_bound (t + utc_offset t) 86400 ltac:(lia)) as Bs.
    set (s := (t + utc_offset t) mod 86400) in *.
    unfold Datetime.strftime.
    cbn [Datetime.year Datetime.month Datetime.day Datetime.hour Datetime.minute
         Datetime.second].
    apply (@digits_app 4 10); [apply year_digits; lia|].
    apply (@digits_app 2 8); [apply pad2_digits; lia|].
    apply (@digits_app 2 6); [apply pad2_digits; lia|].
    apply (@digits_app 2 4).
    { apply pad2_digits.
      pose proof (Z.div_mod s 3600 ltac:(lia)).
      pose proof (Z.mod_pos_bound s 3600 ltac:(lia)). lia. }
    apply (@digits_app 2 2).
    { apply pad2_digits.
      pose proof (Z.mod_pos_bound s 3600 ltac:(lia)).
      pose proof (Z.div_mod (s mod 3600) 60 ltac:(lia)).
      pose proof (Z.mod_pos_bound (s mod 3600) 60 ltac:(lia)). lia. }
    apply pad2_digits. pose proof (Z.mod_pos_bound s 60 ltac:(lia)). lia. }
  unfold Datetime.fromtimestamp in H.
  destruct x as [|b|t| | |]; try discriminate H; [exact (G _ H) | exact (G _ H)].
Qed.

End Width.

Lemma wire_timestamps_are_fourteen_digits_witness :
  GridPlan.digits 14 "20240101042000" = true.
Proof.
  apply (@wire_timestamps_are_fourteen_digits (fun _ => (-18000)%Z) (Py.VInt 1704100800)
           (Datetime.mkDatetime 2024 1 1 4 20 0)).
  - reflexivity.
  - cbn. lia.
Defined.

Lemma fuel_document_lists_the_file_channels_witness :
  map (fun c => ET.get c "id" "")
      (children_tagged
         (Fuel.create_xmltv_output
            (Fuel.collect_channels MainDoc.fetch_one MainDoc.three_entries))
         "channel")
  = ["one"; "two"].
Proof.
  apply (proj2 (@fuel_document_lists_the_file_channels MainDoc.fetch_one
                  MainDoc.three_entries)).
  reflexivity.
Defined.
